(** * Chotacop_Back: a shallow embedding of [main.py]

    The service keeps four JSON files (users, quiz submissions, PDF blobs and
    chapter observations); every handler reads a whole file, changes the list
    in memory and writes the whole list back.  The development below embeds
    the handlers as state-passing functions over a [World] that holds the
    four files, and the chapter statistics as pure functions that build the
    JSON value the handler returns.

    The records of the files are the dicts that the handlers build from the
    [pydantic] request models, so they are records with typed fields here;
    the order of the keys inside a stored record is not kept.  The one
    handler that takes a body without a model, [/update-observation], is
    given twice: on the body as posted, over the observation file as it is,
    and on requests whose chapter is a chapter name, over the typed records
    that the chapter statistics read.  The clock,
    [uuid4] and the SMTP relay are functions of an environment [Env]; times
    are what the clock reads, and their renderings are strings that the
    clock supplies (no floating point is computed). *)

From Stdlib Require Import List String Ascii ZArith Lia Bool Arith.
From Stdlib Require Import DecimalString DecimalNat Sorted Permutation.
From Stdlib Require Import RelationClasses.
From Stdlib Require OrdersEx.
Import ListNotations.
Open Scope string_scope.
Open Scope list_scope.

(** ** JSON values and Python dictionaries *)

(** What [json.load] yields and what a handler returns.  A Python [dict]
    keeps its keys in insertion order, and [json.dump] writes them in that
    order, so a dictionary is an association list.  A number written without
    fraction and exponent is a Python [int]; any other number is a [float],
    given here by its value [m * 2^e] (every finite binary64 value is of that
    form; the infinities and NaN, which are not JSON, are left out). *)
#[local] Unset Elimination Schemes.
Inductive json : Type :=
| JNull
| JBool (b : bool)
| JInt (z : Z)
| JFloat (m e : Z)
| JStr (s : string)
| JList (l : list json)
| JDict (d : list (string * json)).
#[local] Set Elimination Schemes.

Definition dict (V : Type) : Type := list (string * V).

(** [d.get(k)] *)
Fixpoint dict_get {V : Type} (d : dict V) (k : string) : option V :=
  match d with
  | [] => None
  | (k', v) :: d' => if k' =? k then Some v else dict_get d' k
  end.

(** [d[k] = v]: an existing key keeps its position, a new key goes last. *)
Fixpoint dict_set {V : Type} (d : dict V) (k : string) (v : V) : dict V :=
  match d with
  | [] => [(k, v)]
  | (k', v') :: d' => if k' =? k then (k', v) :: d' else (k', v') :: dict_set d' k v
  end.

Definition keys {V : Type} (d : dict V) : list string := map fst d.

(** Python truth value of a JSON value ([not x] is its negation). *)
Definition truthy (x : json) : bool :=
  match x with
  | JNull => false
  | JBool b => b
  | JInt z => negb (z =? 0)%Z
  | JFloat m _ => negb (m =? 0)%Z
  | JStr s => negb (s =? "")
  | JList l => match l with [] => false | _ => true end
  | JDict d => match d with [] => false | _ => true end
  end.

(** Member access on a JSON object, and along a path of keys. *)
Definition member (x : json) (k : string) : option json :=
  match x with
  | JDict d => dict_get d k
  | _ => None
  end.

Fixpoint at_path (x : json) (path : list string) : option json :=
  match path with
  | [] => Some x
  | k :: path' =>
      match member x k with
      | Some y => at_path y path'
      | None => None
      end
  end.

(** [f"{n}"] for a non-negative integer: its decimal numeral. *)
Definition str_of_nat (n : nat) : string :=
  NilZero.string_of_uint (Nat.to_uint n).

(** ** Stored records

    Each record of a file is a Python dict with a fixed set of keys; the
    request models of [pydantic] fix the types of the values. *)

Module User.
Record t : Type := mk
  { email : string; user_id : string; chapter : string; created_at : string }.
End User.

(** A stored quiz submission: the keys of [QuizSubmission], with [class_]
    renamed to [class], and [created_at]. *)
Module Quiz.
Record t : Type := mk
  { email : string; chapter : string; name : string; school : string;
    class : string;
    q1 : list Z; q2 : list Z; q3 : list Z; q4 : list Z; q5 : list Z;
    q6 : list Z; q7 : list Z; q8 : list Z; q9 : list Z; q10 : list Z;
    q11 : list Z; q12 : list Z; q13 : list Z;
    c1 : Z; c2 : Z; c3 : Z; c4 : Z; c5 : Z;
    created_at : string }.

(** [submission[f"q{q_num}"]]; [q_num] only ever ranges over [1..13]. *)
Definition q (q_num : nat) (s : t) : list Z :=
  match q_num with
  | 1 => q1 s | 2 => q2 s | 3 => q3 s | 4 => q4 s | 5 => q5 s
  | 6 => q6 s | 7 => q7 s | 8 => q8 s | 9 => q9 s | 10 => q10 s
  | 11 => q11 s | 12 => q12 s | 13 => q13 s
  | _ => []
  end.
End Quiz.

Module Observation.
Record t : Type := mk
  { chapter : string; data : json; updated_at : string }.
End Observation.

(** ** Helper functions for JSON operations *)

(** [find_one(data_list, query)]: the first item whose fields equal the
    query's; the query [{"email": e}] is the predicate [fun item => email
    item =? e]. *)
Definition find_one {A : Type} (data_list : list A) (query : A -> bool) : option A :=
  find query data_list.

(** [update_one(data_list, query, update)]: [item.update(update)] on the
    first match, and whether there was one. *)
Fixpoint update_one {A : Type} (data_list : list A) (query : A -> bool)
    (update : A -> A) : list A * bool :=
  match data_list with
  | [] => ([], false)
  | item :: rest =>
      if query item then (update item :: rest, true)
      else let (rest', found) := update_one rest query update in
           (item :: rest', found)
  end.

(** Truth value of a list, and of the result of [find_one]: a stored
    record is a dict with keys, hence true, and [None] is false. *)
Definition nonempty {A : Type} (l : list A) : bool :=
  match l with [] => false | _ => true end.

Definition found {A : Type} (o : option A) : bool :=
  match o with Some _ => true | None => false end.

(** ** Chapter statistics ([get_chapter_data]) *)

(** [sum(1 for x in l if cond(x))] *)
Definition count_if {A : Type} (cond : A -> bool) (l : list A) : nat :=
  List.length (filter cond l).

(** [len(submission[q_key]) > ride_index and
     submission[q_key][ride_index] == v] *)
Definition answered (q_num ride_index : nat) (v : Z) (submission : Quiz.t) : bool :=
  (ride_index <? List.length (Quiz.q q_num submission))%nat
  && (nth ride_index (Quiz.q q_num submission) 0 =? v)%Z.

Definition q_key (q_num : nat) : string := "q" ++ str_of_nat q_num.
Definition ride_key (ride_index : nat) : string := "ride_" ++ str_of_nat ride_index.

(** The body of [for ride_index in range(7)]: the entry stored under
    [f"ride_{ride_index}"]. *)
Definition ride_entry (chapter_submissions : list Quiz.t) (q_num ride_index : nat) : json :=
  let ones := count_if (answered q_num ride_index 1) chapter_submissions in
  let zeros := count_if (answered q_num ride_index 0) chapter_submissions in
  JDict [("ones", JInt (Z.of_nat ones));
         ("zeros", JInt (Z.of_nat zeros));
         ("total", JInt (Z.of_nat ones + Z.of_nat zeros))].

(** The body of [for q_num in range(1, 14)]: [question_stats]. *)
Definition question_stats (chapter_submissions : list Quiz.t) (q_num : nat) : json :=
  let rides :=
    fold_left
      (fun rides ride_index =>
         dict_set rides (ride_key ride_index)
                  (ride_entry chapter_submissions q_num ride_index))
      (seq 0 7) [] in
  JDict [("total_submissions", JInt (Z.of_nat (List.length chapter_submissions)));
         ("rides", JDict rides)].

(** The dictionary [stats] (called [chapter_stats] in the all-chapters
    branch, whose loop is the same text). *)
Definition stats (chapter_submissions : list Quiz.t) : dict json :=
  fold_left
    (fun stats q_num =>
       dict_set stats (q_key q_num) (question_stats chapter_submissions q_num))
    (seq 1 13) [].

Definition observation_data (chapter_observation : option Observation.t) : json :=
  match chapter_observation with
  | Some o => Observation.data o
  | None => JNull
  end.

Definition chapter_submissions_of (submissions : list Quiz.t) (chapter : string) : list Quiz.t :=
  filter (fun s => Quiz.chapter s =? chapter) submissions.

Definition chapter_observation_of (observations : list Observation.t) (chapter : string)
  : option Observation.t :=
  find_one observations (fun o => Observation.chapter o =? chapter).

(** Lines 456-499: the data of one specific chapter. *)
Definition chapter_data (chapter : string) (submissions : list Quiz.t)
    (observations : list Observation.t) : json :=
  let chapter_submissions := chapter_submissions_of submissions chapter in
  let chapter_observation := chapter_observation_of observations chapter in
  if negb (nonempty chapter_submissions) && negb (found chapter_observation) then
    JDict [("chapter", JStr chapter);
           ("total_submissions", JInt 0);
           ("question_stats", JDict []);
           ("observation", JNull)]
  else
    JDict [("chapter", JStr chapter);
           ("total_submissions", JInt (Z.of_nat (List.length chapter_submissions)));
           ("question_stats", JDict (stats chapter_submissions));
           ("observation", observation_data chapter_observation)].

(** [chapters.sort()]: strings compare by code point, which on the UTF-8
    bytes of a [string] is the byte-wise lexicographic order. *)
Fixpoint insert_sorted (x : string) (l : list string) : list string :=
  match l with
  | [] => [x]
  | y :: l' => if (x <=? y)%string then x :: l else y :: insert_sorted x l'
  end.

Fixpoint sort (l : list string) : list string :=
  match l with
  | [] => []
  | x :: l' => insert_sorted x (sort l')
  end.

(** [list(set(s["chapter"] for s in submissions) |
          set(o["chapter"] for o in observations))], then [sort()].  The
    order in which a Python set is listed is unspecified; the sort that
    follows makes it irrelevant. *)
Definition chapters_of (submissions : list Quiz.t) (observations : list Observation.t)
  : list string :=
  sort (nodup string_dec
          (map Quiz.chapter submissions ++ map Observation.chapter observations)).

(** Lines 403-453: the data of every chapter. *)
Definition all_chapter_data (submissions : list Quiz.t)
    (observations : list Observation.t) : dict json :=
  fold_left
    (fun all_chapter_data chapter_name =>
       let chapter_submissions := chapter_submissions_of submissions chapter_name in
       let chapter_observation := chapter_observation_of observations chapter_name in
       dict_set all_chapter_data chapter_name
         (JDict [("total_submissions", JInt (Z.of_nat (List.length chapter_submissions)));
                 ("question_stats", JDict (stats chapter_submissions));
                 ("observation", observation_data chapter_observation)]))
    (chapters_of submissions observations) [].

(** What the handler returns once the user's chapter is known. *)
Definition chapter_response (chapter : string) (submissions : list Quiz.t)
    (observations : list Observation.t) : json :=
  if chapter =? "ALL_Chapter" then
    JDict [("chapter", JStr "ALL_Chapter");
           ("chapters", JDict (all_chapter_data submissions observations))]
  else chapter_data chapter submissions observations.

(** ** Bytes and their hexadecimal form ([bytes.hex], [bytes.fromhex]) *)

Definition hex_digit (n : N) : ascii :=
  match n with
  | 0 => "0" | 1 => "1" | 2 => "2" | 3 => "3" | 4 => "4" | 5 => "5"
  | 6 => "6" | 7 => "7" | 8 => "8" | 9 => "9" | 10 => "a" | 11 => "b"
  | 12 => "c" | 13 => "d" | 14 => "e" | _ => "f"
  end%N%char.

(** [b.hex()]: two lower-case digits per byte, high nibble first. *)
Fixpoint hex (b : list Byte.byte) : string :=
  match b with
  | [] => ""
  | x :: b' =>
      let n := Byte.to_N x in
      String (hex_digit (n / 16)) (String (hex_digit (n mod 16)) (hex b'))
  end.

(** The value of a hexadecimal digit; [fromhex] takes either case. *)
Definition hex_value (c : ascii) : option N :=
  let n := N_of_ascii c in
  if (48 <=? n)%N && (n <=? 57)%N then Some (n - 48)%N
  else if (97 <=? n)%N && (n <=? 102)%N then Some (n - 87)%N
  else if (65 <=? n)%N && (n <=? 70)%N then Some (n - 55)%N
  else None.

(** ASCII whitespace: space, tab, line feed, vertical tab, form feed,
    carriage return. *)
Definition is_space (c : ascii) : bool :=
  let n := N_of_ascii c in
  (n =? 32)%N || ((9 <=? n)%N && (n <=? 13)%N).

(** [bytes.fromhex(s)]: whitespace before a byte is skipped, then two
    digits make a byte; anything else raises [ValueError] ([None]). *)
Fixpoint fromhex (s : string) : option (list Byte.byte) :=
  match s with
  | "" => Some []
  | String c s' =>
      if is_space c then fromhex s'
      else
        match s' with
        | "" => None
        | String c' s'' =>
            match hex_value c, hex_value c' with
            | Some h, Some l =>
                match Byte.of_N (16 * h + l), fromhex s'' with
                | Some x, Some b => Some (x :: b)
                | _, _ => None
                end
            | _, _ => None
            end
        end
  end.

(** ** Request models *)

Module SignUpRequest.
Record t : Type := mk { email : string; chapter_name : string }.
End SignUpRequest.

Module QuizSubmission.
Record t : Type := mk
  { email : string; chapter : string; name : string; school : string;
    class_ : string;
    q1 : list Z; q2 : list Z; q3 : list Z; q4 : list Z; q5 : list Z;
    q6 : list Z; q7 : list Z; q8 : list Z; q9 : list Z; q10 : list Z;
    q11 : list Z; q12 : list Z; q13 : list Z;
    c1 : Z; c2 : Z; c3 : Z; c4 : Z; c5 : Z }.
End QuizSubmission.

Module BulkSubmissionItem.
Record t : Type := mk
  { q1 : list Z; q2 : list Z; q3 : list Z; q4 : list Z; q5 : list Z;
    q6 : list Z; q7 : list Z; q8 : list Z; q9 : list Z; q10 : list Z;
    q11 : list Z; q12 : list Z; q13 : list Z;
    c1 : Z; c2 : Z; c3 : Z; c4 : Z; c5 : Z }.
End BulkSubmissionItem.

Module BulkUploadRequest.
Record t : Type := mk
  { chapter : string; school : string; submissions : list BulkSubmissionItem.t }.
End BulkUploadRequest.

Module SendOTPRequest.
Record t : Type := mk { email : string; otp : string }.
End SendOTPRequest.

(** The uploaded file of [/send-pdf]. *)
Module UploadFile.
Record t : Type := mk { filename : string; content : list Byte.byte }.
End UploadFile.

(** A request to [/update-observation] whose chapter is a chapter name: the
    typed form of the body, [None] being a key that is not there.  The
    handler takes any JSON body; [update_observation_raw] below is the
    handler on the body as posted, and [update_observation] is what it does
    on the bodies of this form. *)
Module ObservationBody.
Record t : Type := mk { chapter : option string; data : option json }.
End ObservationBody.

(** The JSON object posted to [/chapter-data]. *)
Module ChapterDataPayload.
Record t : Type := mk { user_id : option string }.
End ChapterDataPayload.

Module PdfEntry.
Record t : Type := mk
  { filename : string; content : string; email : string; uploaded_at : string }.
End PdfEntry.

(** ** The world of a request *)

(** One reading of the clock: [time.time()] (in microseconds), and the two
    renderings the handlers use, [str(datetime.timestamp())] and
    [datetime.isoformat()]. *)
Record Instant : Type :=
  { epoch_us : Z; timestamp : string; isoformat : string }.

(** A message handed to the SMTP relay. *)
Record Mail : Type :=
  { mail_to : string; mail_subject : string; mail_body : string;
    mail_attachment : option (string * list Byte.byte) }.

Inductive file : Type -> Type :=
| USERS_FILE : file User.t
| QUIZ_SUBMISSIONS_FILE : file Quiz.t
| PDF_FILES_FILE : file PdfEntry.t
| CHAPTER_OBSERVATIONS_FILE : file Observation.t.

(** What a request leaves behind, in order. *)
Inductive Event : Type :=
| Wrote {A : Type} (f : file A)
| Mailed (m : Mail)
| GitPush (commit_message : string).

Record World : Type :=
  { users : list User.t;
    quiz_submissions : list Quiz.t;
    pdf_files : list PdfEntry.t;
    chapter_observations : list Observation.t;
    last_push_time : Z;
    ticks : nat;          (* clock readings taken so far *)
    uuids : nat;          (* identifiers drawn so far *)
    events : list Event }.

(** What the service does not decide: the clock, [uuid.uuid4()], and whether
    the relay accepts a message ([Some e] is the exception it raises). *)
Record Env : Type :=
  { clock : nat -> Instant;
    uuid_source : nat -> string;
    smtp : nat -> Mail -> option string }.

(** A handler returns a value or raises [HTTPException]; either way the
    world is what the handler made of it until then. *)
Inductive Result (A : Type) : Type :=
| Ok (a : A)
| HTTPException (status_code : Z) (detail : string).
Arguments Ok {A} a.
Arguments HTTPException {A} status_code detail.

Definition M (A : Type) : Type := World -> Result A * World.

Definition ret {A : Type} (a : A) : M A := fun w => (Ok a, w).

Definition bind {A B : Type} (m : M A) (k : A -> M B) : M B :=
  fun w =>
    match m w with
    | (Ok a, w') => k a w'
    | (HTTPException c d, w') => (HTTPException c d, w')
    end.

Definition raise {A : Type} (status_code : Z) (detail : string) : M A :=
  fun w => (HTTPException status_code detail, w).

Declare Scope handler_scope.
Delimit Scope handler_scope with handler.
Notation "x <- m ;; k" := (bind m (fun x => k))
  (at level 61, m at next level, right associativity) : handler_scope.
Notation "m ;; k" := (bind m (fun _ => k))
  (at level 61, right associativity) : handler_scope.
Open Scope handler_scope.

Definition log (e : Event) : M unit :=
  fun w =>
    (Ok tt,
     {| users := users w; quiz_submissions := quiz_submissions w;
        pdf_files := pdf_files w; chapter_observations := chapter_observations w;
        last_push_time := last_push_time w; ticks := ticks w; uuids := uuids w;
        events := events w ++ [e] |}).

Definition read_json_file {A : Type} (file_path : file A) : M (list A) :=
  fun w =>
    (Ok match file_path in file T return list T with
        | USERS_FILE => users w
        | QUIZ_SUBMISSIONS_FILE => quiz_submissions w
        | PDF_FILES_FILE => pdf_files w
        | CHAPTER_OBSERVATIONS_FILE => chapter_observations w
        end, w).

Definition store {A : Type} (file_path : file A) : list A -> World -> World :=
  match file_path in file T return list T -> World -> World with
  | USERS_FILE => fun data w =>
      {| users := data; quiz_submissions := quiz_submissions w;
         pdf_files := pdf_files w; chapter_observations := chapter_observations w;
         last_push_time := last_push_time w; ticks := ticks w; uuids := uuids w;
         events := events w |}
  | QUIZ_SUBMISSIONS_FILE => fun data w =>
      {| users := users w; quiz_submissions := data;
         pdf_files := pdf_files w; chapter_observations := chapter_observations w;
         last_push_time := last_push_time w; ticks := ticks w; uuids := uuids w;
         events := events w |}
  | PDF_FILES_FILE => fun data w =>
      {| users := users w; quiz_submissions := quiz_submissions w;
         pdf_files := data; chapter_observations := chapter_observations w;
         last_push_time := last_push_time w; ticks := ticks w; uuids := uuids w;
         events := events w |}
  | CHAPTER_OBSERVATIONS_FILE => fun data w =>
      {| users := users w; quiz_submissions := quiz_submissions w;
         pdf_files := pdf_files w; chapter_observations := data;
         last_push_time := last_push_time w; ticks := ticks w; uuids := uuids w;
         events := events w |}
  end.

Definition write_json_file {A : Type} (file_path : file A) (data : list A) : M unit :=
  fun w => log (Wrote file_path) (store file_path data w).

(** A stored submission as a JSON object, with the keys in the order that
    [upload_quiz] gives them. *)
Definition ints (l : list Z) : json := JList (map JInt l).

Definition quiz_json (s : Quiz.t) : json :=
  JDict [("email", JStr (Quiz.email s)); ("chapter", JStr (Quiz.chapter s));
         ("name", JStr (Quiz.name s)); ("school", JStr (Quiz.school s));
         ("q1", ints (Quiz.q1 s)); ("q2", ints (Quiz.q2 s)); ("q3", ints (Quiz.q3 s));
         ("q4", ints (Quiz.q4 s)); ("q5", ints (Quiz.q5 s)); ("q6", ints (Quiz.q6 s));
         ("q7", ints (Quiz.q7 s)); ("q8", ints (Quiz.q8 s)); ("q9", ints (Quiz.q9 s));
         ("q10", ints (Quiz.q10 s)); ("q11", ints (Quiz.q11 s));
         ("q12", ints (Quiz.q12 s)); ("q13", ints (Quiz.q13 s));
         ("c1", JInt (Quiz.c1 s)); ("c2", JInt (Quiz.c2 s)); ("c3", JInt (Quiz.c3 s));
         ("c4", JInt (Quiz.c4 s)); ("c5", JInt (Quiz.c5 s));
         ("class", JStr (Quiz.class s)); ("created_at", JStr (Quiz.created_at s))].

Definition nl : string := String "010" "".

(** ** The handlers *)

Section Handlers.

Variable env : Env.

(** [datetime.utcnow()] and [time.time()]: the next reading of the clock. *)
Definition utcnow : M Instant :=
  fun w =>
    (Ok (clock env (ticks w)),
     {| users := users w; quiz_submissions := quiz_submissions w;
        pdf_files := pdf_files w; chapter_observations := chapter_observations w;
        last_push_time := last_push_time w; ticks := S (ticks w); uuids := uuids w;
        events := events w |}).

(** [str(uuid.uuid4())] *)
Definition uuid4 : M string :=
  fun w =>
    (Ok (uuid_source env (uuids w)),
     {| users := users w; quiz_submissions := quiz_submissions w;
        pdf_files := pdf_files w; chapter_observations := chapter_observations w;
        last_push_time := last_push_time w; ticks := ticks w; uuids := S (uuids w);
        events := events w |}).

Definition set_last_push_time (now : Z) : M unit :=
  fun w =>
    (Ok tt,
     {| users := users w; quiz_submissions := quiz_submissions w;
        pdf_files := pdf_files w; chapter_observations := chapter_observations w;
        last_push_time := now; ticks := ticks w; uuids := uuids w;
        events := events w |}).

(** [sync_git]: at most one push every ten seconds. *)
Definition sync_git (commit_message : string) : M unit :=
  now <- utcnow ;;
  fun w =>
    if (epoch_us now - last_push_time w <? 10 * 1000000)%Z then ret tt w
    else (set_last_push_time (epoch_us now) ;; log (GitPush commit_message)) w.

(** [server.send_message(msg)] inside [try]: the message goes to the relay,
    which accepts it or raises. *)
Definition send_message (msg : Mail) : M (option string) :=
  fun w =>
    match log (Mailed msg) w with
    | (_, w') => (Ok (smtp env (List.length (events w)) msg), w')
    end.

(** [POST /signup] *)
Definition signup (request : SignUpRequest.t) : M User.t :=
  users <- read_json_file USERS_FILE ;;
  if found (find_one users (fun item => User.email item =? SignUpRequest.email request))
  then raise 400 "Email already registered"
  else
    if found (find_one users
                (fun item => User.chapter item =? SignUpRequest.chapter_name request))
    then raise 400 "Chapter already registered"
    else
      id <- uuid4 ;;
      now <- utcnow ;;
      let user :=
        {| User.email := SignUpRequest.email request;
           User.user_id := id;
           User.chapter := SignUpRequest.chapter_name request;
           User.created_at := isoformat now |} in
      write_json_file USERS_FILE (users ++ [user]) ;;
      sync_git "Auto sync from /signup" ;;
      ret user.

(** [POST /signin] *)
Definition signin (email : string) : M User.t :=
  users <- read_json_file USERS_FILE ;;
  match find_one users (fun item => User.email item =? email) with
  | Some user => ret user
  | None => raise 404 "User not found"
  end.

(** [POST /api/signin] *)
Definition api_signin (email : string) : M User.t := signin email.

(** [quiz = data.dict()], [class_] renamed, [created_at] stamped. *)
Definition quiz_of (data : QuizSubmission.t) (created_at : string) : Quiz.t :=
  {| Quiz.email := QuizSubmission.email data;
     Quiz.chapter := QuizSubmission.chapter data;
     Quiz.name := QuizSubmission.name data;
     Quiz.school := QuizSubmission.school data;
     Quiz.class := QuizSubmission.class_ data;
     Quiz.q1 := QuizSubmission.q1 data; Quiz.q2 := QuizSubmission.q2 data;
     Quiz.q3 := QuizSubmission.q3 data; Quiz.q4 := QuizSubmission.q4 data;
     Quiz.q5 := QuizSubmission.q5 data; Quiz.q6 := QuizSubmission.q6 data;
     Quiz.q7 := QuizSubmission.q7 data; Quiz.q8 := QuizSubmission.q8 data;
     Quiz.q9 := QuizSubmission.q9 data; Quiz.q10 := QuizSubmission.q10 data;
     Quiz.q11 := QuizSubmission.q11 data; Quiz.q12 := QuizSubmission.q12 data;
     Quiz.q13 := QuizSubmission.q13 data;
     Quiz.c1 := QuizSubmission.c1 data; Quiz.c2 := QuizSubmission.c2 data;
     Quiz.c3 := QuizSubmission.c3 data; Quiz.c4 := QuizSubmission.c4 data;
     Quiz.c5 := QuizSubmission.c5 data;
     Quiz.created_at := created_at |}.

(** [POST /upload].  [quiz] has every key of a stored submission, so
    [item.update(quiz)] leaves the item equal to [quiz]. *)
Definition upload_quiz (data : QuizSubmission.t) : M json :=
  now <- utcnow ;;
  let quiz := quiz_of data (isoformat now) in
  submissions <- read_json_file QUIZ_SUBMISSIONS_FILE ;;
  let existing_submission :=
    find_one submissions (fun item => Quiz.email item =? Quiz.email quiz) in
  let submissions :=
    if found existing_submission
    then fst (update_one submissions (fun item => Quiz.email item =? Quiz.email quiz)
                         (fun _ => quiz))
    else submissions ++ [quiz] in
  write_json_file QUIZ_SUBMISSIONS_FILE submissions ;;
  sync_git "Auto sync from /upload" ;;
  ret (JDict [("message", JStr "Quiz submission saved successfully")]).

(** [POST /check-mail] *)
Definition check_email_exists (email : string) : M json :=
  submissions <- read_json_file QUIZ_SUBMISSIONS_FILE ;;
  let exists_ := found (find_one submissions (fun item => Quiz.email item =? email)) in
  ret (JDict [("exists", JBool exists_)]).

(** [POST /email-data] *)
Definition get_data_by_email (email : string) : M json :=
  submissions <- read_json_file QUIZ_SUBMISSIONS_FILE ;;
  let data := filter (fun s => Quiz.email s =? email) submissions in
  ret (JDict [("data", JList (map quiz_json data))]).

(** [send_otp_via_gmail]; the sender's password is a non-empty constant,
    so its guard never fires. *)
Definition send_otp_via_gmail (otp recipient_email : string) : M string :=
  let body := ("Hi," ++ nl ++ nl ++ "Your OTP is: " ++ otp ++ nl ++ nl
               ++ "Thanks," ++ nl ++ "ChotaCop Team")%string in
  outcome <- send_message {| mail_to := recipient_email;
                             mail_subject := "Your OTP Code";
                             mail_body := body;
                             mail_attachment := None |} ;;
  match outcome with
  | None => ret "OTP sent successfully"
  | Some e => ret ("Failed to send OTP: " ++ e)%string
  end.

(** [POST /send-otp] *)
Definition send_otp (otp_request : SendOTPRequest.t) : M json :=
  result <- send_otp_via_gmail (SendOTPRequest.otp otp_request)
                               (SendOTPRequest.email otp_request) ;;
  if result =? "OTP sent successfully"
  then ret (JDict [("message", JStr "OTP sent successfully")])
  else raise 500 result.

(** [send_pdf_via_gmail] *)
Definition send_pdf_via_gmail (pdf_data : list Byte.byte) (recipient_email : string)
  : M string :=
  let body := ("Hi," ++ nl ++ nl ++ "Please find the attached PDF." ++ nl ++ nl
               ++ "Thanks! from Crivo")%string in
  outcome <- send_message {| mail_to := recipient_email;
                             mail_subject := "Your PDF File";
                             mail_body := body;
                             mail_attachment := Some ("document.pdf", pdf_data) |} ;;
  match outcome with
  | None => ret "PDF sent successfully"
  | Some e => ret ("Failed to send PDF: " ++ e)%string
  end.

(** [POST /send-pdf].  A [ValueError] of [bytes.fromhex] would leave the
    handler as a server error. *)
Definition send_pdf (file : UploadFile.t) (email : string) : M json :=
  let file_data := UploadFile.content file in
  pdf_files <- read_json_file PDF_FILES_FILE ;;
  now <- utcnow ;;
  let pdf_entry :=
    {| PdfEntry.filename := UploadFile.filename file;
       PdfEntry.content := hex file_data;
       PdfEntry.email := email;
       PdfEntry.uploaded_at := isoformat now |} in
  write_json_file PDF_FILES_FILE (pdf_files ++ [pdf_entry]) ;;
  match fromhex (PdfEntry.content pdf_entry) with
  | None => raise 500 "Internal Server Error"
  | Some file_data =>
      result <- send_pdf_via_gmail file_data email ;;
      ret (JDict [("message", JStr result)])
  end.

(** [not chapter], [not data] for the values [body.get] gives. *)
Definition str_truthy (x : option string) : bool :=
  match x with Some s => negb (s =? "") | None => false end.

Definition json_truthy (x : option json) : bool :=
  match x with Some v => truthy v | None => false end.

(** The value behind what [body.get] gave; past the guards of the
    handlers it is there. *)
Definition str_value (x : option string) : string :=
  match x with Some s => s | None => "" end.

Definition json_value (x : option json) : json :=
  match x with Some v => v | None => JNull end.

(** [POST /update-observation] *)
Definition update_observation (body : ObservationBody.t) : M json :=
  let chapter := ObservationBody.chapter body in
  let data := ObservationBody.data body in
  if negb (str_truthy chapter) || negb (json_truthy data)
  then raise 400 "Missing 'chapter' or 'data'"
  else
    let chapter := str_value chapter in
    let data := json_value data in
    observations <- read_json_file CHAPTER_OBSERVATIONS_FILE ;;
    let existing_observation :=
      find_one observations (fun item => Observation.chapter item =? chapter) in
    observations <-
      (if found existing_observation
       then
         now <- utcnow ;;
         ret (fst (update_one observations
                     (fun item => Observation.chapter item =? chapter)
                     (fun item =>
                        {| Observation.chapter := Observation.chapter item;
                           Observation.data := data;
                           Observation.updated_at := isoformat now |})))
       else
         now <- utcnow ;;
         ret (observations ++
                [{| Observation.chapter := chapter;
                    Observation.data := data;
                    Observation.updated_at := isoformat now |}])) ;;
    write_json_file CHAPTER_OBSERVATIONS_FILE observations ;;
    sync_git "Auto sync from /update-observation" ;;
    ret (JDict [("message", JStr "Observation data added or updated")]).

(** [POST /chapter-data] *)
Definition get_chapter_data (payload : ChapterDataPayload.t) : M json :=
  let user_id := ChapterDataPayload.user_id payload in
  if negb (str_truthy user_id) then raise 400 "Missing 'user_id'"
  else
    let user_id := str_value user_id in
    users <- read_json_file USERS_FILE ;;
    match find_one users (fun item => User.user_id item =? user_id) with
    | None => raise 404 "User not found"
    | Some user =>
        let chapter := User.chapter user in
        submissions <- read_json_file QUIZ_SUBMISSIONS_FILE ;;
        observations <- read_json_file CHAPTER_OBSERVATIONS_FILE ;;
        ret (chapter_response chapter submissions observations)
    end.

(** The dict [new_submission], for the size of the list, the clock reading
    behind its email and the one behind [created_at]. *)
Definition new_submission (data : BulkUploadRequest.t) (submission : BulkSubmissionItem.t)
    (size : nat) (stamp now : Instant) : Quiz.t :=
  {| Quiz.email := "bulk_" ++ timestamp stamp ++ "_" ++ str_of_nat size;
     Quiz.chapter := BulkUploadRequest.chapter data;
     Quiz.name := "Bulk Submission " ++ str_of_nat (size + 1);
     Quiz.school := BulkUploadRequest.school data;
     Quiz.class := "Bulk";
     Quiz.q1 := BulkSubmissionItem.q1 submission;
     Quiz.q2 := BulkSubmissionItem.q2 submission;
     Quiz.q3 := BulkSubmissionItem.q3 submission;
     Quiz.q4 := BulkSubmissionItem.q4 submission;
     Quiz.q5 := BulkSubmissionItem.q5 submission;
     Quiz.q6 := BulkSubmissionItem.q6 submission;
     Quiz.q7 := BulkSubmissionItem.q7 submission;
     Quiz.q8 := BulkSubmissionItem.q8 submission;
     Quiz.q9 := BulkSubmissionItem.q9 submission;
     Quiz.q10 := BulkSubmissionItem.q10 submission;
     Quiz.q11 := BulkSubmissionItem.q11 submission;
     Quiz.q12 := BulkSubmissionItem.q12 submission;
     Quiz.q13 := BulkSubmissionItem.q13 submission;
     Quiz.c1 := BulkSubmissionItem.c1 submission;
     Quiz.c2 := BulkSubmissionItem.c2 submission;
     Quiz.c3 := BulkSubmissionItem.c3 submission;
     Quiz.c4 := BulkSubmissionItem.c4 submission;
     Quiz.c5 := BulkSubmissionItem.c5 submission;
     Quiz.created_at := isoformat now |}.

(** One round of [for submission in data.submissions]: the clock is read
    for the email, then for [created_at]. *)
Definition bulk_item (data : BulkUploadRequest.t) (submissions : list Quiz.t)
    (submission : BulkSubmissionItem.t) : M (list Quiz.t) :=
  stamp <- utcnow ;;
  now <- utcnow ;;
  ret (submissions
         ++ [new_submission data submission (List.length submissions) stamp now]).

Fixpoint for_each {A S : Type} (body : S -> A -> M S) (l : list A) (s : S) : M S :=
  match l with
  | [] => ret s
  | x :: l' => s' <- body s x ;; for_each body l' s'
  end.

(** [POST /bulk-upload] *)
Definition bulk_upload_quiz (data : BulkUploadRequest.t) : M json :=
  submissions <- read_json_file QUIZ_SUBMISSIONS_FILE ;;
  submissions <- for_each (bulk_item data) (BulkUploadRequest.submissions data)
                          submissions ;;
  write_json_file QUIZ_SUBMISSIONS_FILE submissions ;;
  sync_git "Auto sync from /bulk-upload" ;;
  ret (JDict [("message",
               JStr ("Successfully uploaded "
                       ++ str_of_nat (List.length (BulkUploadRequest.submissions data))
                       ++ " quiz submissions"))]).

(** [GET /] *)
Definition read_root : M json :=
  ret (JDict [("message", JStr "Hello, from FastAPI!")]).

End Handlers.

(** ** [/update-observation] on the body as posted

    [request.json()] gives any JSON value, and the handler looks at it with
    [body.get]; nothing checks that the chapter is a string.  The file can
    therefore hold records whose chapter is any true JSON value, and the
    handler finds a record by Python's [==]. *)

(** A record of [chapter_observations.json] as the handler writes it. *)
Module Stored.
Record t : Type := mk { chapter : json; data : json; updated_at : string }.
End Stored.

(** The numbers of Python, as [m * 2^e]: [True] is 1 and [False] is 0. *)
Definition as_number (x : json) : option (Z * Z) :=
  match x with
  | JBool b => Some (if b then 1 else 0, 0)%Z
  | JInt z => Some (z, 0%Z)
  | JFloat m e => Some (m, e)
  | _ => None
  end.

(** [m1 * 2^e1 == m2 * 2^e2], exactly. *)
Definition num_eq (a b : Z * Z) : bool :=
  let (m1, e1) := a in
  let (m2, e2) := b in
  let e := Z.min e1 e2 in
  (m1 * 2 ^ (e1 - e) =? m2 * 2 ^ (e2 - e))%Z.

(** [x == y] on JSON values: numbers (booleans among them) by value,
    strings by their characters, lists item by item, dicts key by key
    whatever the order of the keys; values of different kinds differ. *)
Fixpoint py_eq (x y : json) {struct x} : bool :=
  match x, y with
  | JNull, JNull => true
  | JStr s, JStr t => s =? t
  | JList l, JList l' =>
      (fix items (l l' : list json) {struct l} : bool :=
         match l, l' with
         | [], [] => true
         | a :: l, b :: l' => py_eq a b && items l l'
         | _, _ => false
         end) l l'
  | JDict d, JDict d' =>
      (List.length d =? List.length d')%nat
      && (fix members (d : list (string * json)) {struct d} : bool :=
            match d with
            | [] => true
            | (k, v) :: d =>
                match dict_get d' k with
                | Some v' => py_eq v v'
                | None => false
                end && members d
            end) d
  | _, _ =>
      match as_number x, as_number y with
      | Some a, Some b => num_eq a b
      | _, _ => false
      end
  end.

(** [body.get(k)]: Python's [None] for a key that is not there. *)
Definition body_get (body : dict json) (k : string) : json :=
  match dict_get body k with
  | Some v => v
  | None => JNull
  end.

(** The records whose chapter is a chapter name, as the other handlers see
    them, and a typed record as it is in the file. *)
Definition typed_view (file : list Stored.t) : list Observation.t :=
  flat_map
    (fun item =>
       match Stored.chapter item with
       | JStr c => [{| Observation.chapter := c;
                       Observation.data := Stored.data item;
                       Observation.updated_at := Stored.updated_at item |}]
       | _ => []
       end) file.

Definition stored_of (o : Observation.t) : Stored.t :=
  {| Stored.chapter := JStr (Observation.chapter o);
     Stored.data := Observation.data o;
     Stored.updated_at := Observation.updated_at o |}.

(** The observation file as it is, beside the world. *)
Record RawWorld : Type :=
  { observation_file : list Stored.t; typed_world : World }.

(** [POST /update-observation] for any body.  A body that is not an object
    has no [get]: the [AttributeError] leaves the handler as a server
    error. *)
Definition update_observation_raw (env : Env) (body : json) (rw : RawWorld)
  : Result json * RawWorld :=
  match body with
  | JDict body =>
      let chapter := body_get body "chapter" in
      let data := body_get body "data" in
      if negb (truthy chapter) || negb (truthy data)
      then (HTTPException 400 "Missing 'chapter' or 'data'", rw)
      else
        let observations := observation_file rw in
        let query := fun item => py_eq (Stored.chapter item) chapter in
        let existing_observation := find_one observations query in
        let now := clock env (ticks (typed_world rw)) in
        let observations :=
          if found existing_observation
          then fst (update_one observations query
                      (fun item =>
                         {| Stored.chapter := Stored.chapter item;
                            Stored.data := data;
                            Stored.updated_at := isoformat now |}))
          else observations
               ++ [{| Stored.chapter := chapter;
                      Stored.data := data;
                      Stored.updated_at := isoformat now |}] in
        match (utcnow env ;;
               write_json_file CHAPTER_OBSERVATIONS_FILE (typed_view observations) ;;
               sync_git env "Auto sync from /update-observation") (typed_world rw) with
        | (Ok _, w') =>
            (Ok (JDict [("message", JStr "Observation data added or updated")]),
             {| observation_file := observations; typed_world := w' |})
        | (HTTPException status_code detail, w') =>
            (HTTPException status_code detail,
             {| observation_file := observation_file rw; typed_world := w' |})
        end
  | _ => (HTTPException 500 "Internal Server Error", rw)
  end.

(** ** Vocabulary of the statements *)

(** [counts P l n]: exactly [n] elements of [l] satisfy [P]. *)
Inductive counts {A : Type} (P : A -> Prop) : list A -> nat -> Prop :=
| counts_nil : counts P [] 0
| counts_in x l n : P x -> counts P l n -> counts P (x :: l) (S n)
| counts_out x l n : ~ P x -> counts P l n -> counts P (x :: l) n.

(** The submission's sequence for question [q_num] is longer than [r] and
    has [v] at position [r]. *)
Definition has_at (q_num r : nat) (v : Z) (s : Quiz.t) : Prop :=
  (r < List.length (Quiz.q q_num s))%nat /\ nth_error (Quiz.q q_num s) r = Some v.

(** The submissions of a chapter, and whether the chapter has an
    observation. *)
Definition in_chapter (chapter : string) (s : Quiz.t) : Prop :=
  Quiz.chapter s = chapter.

Definition observed (observations : list Observation.t) (chapter : string) : Prop :=
  exists o, In o observations /\ Observation.chapter o = chapter.

(** A chapter has data when it has a submission or an observation. *)
Definition has_data (chapter : string) (submissions : list Quiz.t)
    (observations : list Observation.t) : Prop :=
  (exists s, In s submissions /\ in_chapter chapter s) \/ observed observations chapter.

(** A stored submission of chapter [C1] whose first question has the given
    sequence; the other fields play no part in the example. *)
Definition submission_C1 (email : string) (q1 : list Z) : Quiz.t :=
  {| Quiz.email := email; Quiz.chapter := "C1"; Quiz.name := ""; Quiz.school := "";
     Quiz.class := "";
     Quiz.q1 := q1; Quiz.q2 := []; Quiz.q3 := []; Quiz.q4 := []; Quiz.q5 := [];
     Quiz.q6 := []; Quiz.q7 := []; Quiz.q8 := []; Quiz.q9 := []; Quiz.q10 := [];
     Quiz.q11 := []; Quiz.q12 := []; Quiz.q13 := [];
     Quiz.c1 := 0; Quiz.c2 := 0; Quiz.c3 := 0; Quiz.c4 := 0; Quiz.c5 := 0;
     Quiz.created_at := "" |}.

(** The entry of one ride in the response. *)
Definition ride_json (ones zeros total : Z) : json :=
  JDict [("ones", JInt ones); ("zeros", JInt zeros); ("total", JInt total)].

(** The order of [str] in Python, strict and large. *)
Definition str_lt (a b : string) : Prop := (a <? b)%string = true.
Definition str_le (a b : string) : Prop := (a <=? b)%string = true.

(** The submission has the given email. *)
Definition has_email (email : string) (s : Quiz.t) : Prop := Quiz.email s = email.

(** The values that are false in Python: [None], [False], [0], [0.0], and
    the empty string, list and dict. *)
Definition falsy (x : json) : Prop :=
  x = JNull \/ x = JBool false \/ x = JInt 0 \/ (exists e, x = JFloat 0 e)
  \/ x = JStr "" \/ x = JList [] \/ x = JDict [].

(** The world after [n] runs of a handler. *)
Fixpoint after {A : Type} (n : nat) (handler : M A) (w : World) : World :=
  match n with
  | O => w
  | S n' => after n' handler (snd (handler w))
  end.

(** A small world to run the handlers in: one user of the sentinel chapter,
    two submissions of chapter C1, a clock that ticks once a second, a relay
    that refuses everything. *)
Definition admin : User.t :=
  {| User.email := "admin@x.org"; User.user_id := "u1";
     User.chapter := "ALL_Chapter"; User.created_at := "2024-01-01T00:00:00" |}.

Definition small_world : World :=
  {| users := [admin];
     quiz_submissions :=
       [submission_C1 "a@x.org" [1; 0; 1]; submission_C1 "b@x.org" [1; 1]]%Z;
     pdf_files := [];
     chapter_observations := [];
     last_push_time := 0;
     ticks := 0; uuids := 0; events := [] |}.

Definition small_env : Env :=
  {| clock := fun n =>
       {| epoch_us := 1700000000000000 + 1000000 * Z.of_nat n;
          timestamp := "1700000000." ++ str_of_nat n;
          isoformat := "2023-11-14T22:13:20." ++ str_of_nat n |};
     uuid_source := fun n => ("uuid-" ++ str_of_nat n)%string;
     smtp := fun _ _ => Some "Connection refused" |}.

(** A stored set in which two records carry the same email, and an upload
    for that email. *)
Definition twin_world : World :=
  {| users := [admin];
     quiz_submissions := [submission_C1 "a@x.org" [1]; submission_C1 "a@x.org" [0]]%Z;
     pdf_files := [];
     chapter_observations := [];
     last_push_time := 0;
     ticks := 0; uuids := 0; events := [] |}.

Definition upload_of (email : string) (q1 : list Z) : QuizSubmission.t :=
  {| QuizSubmission.email := email; QuizSubmission.chapter := "C1";
     QuizSubmission.name := "A"; QuizSubmission.school := "S";
     QuizSubmission.class_ := "5";
     QuizSubmission.q1 := q1; QuizSubmission.q2 := []; QuizSubmission.q3 := [];
     QuizSubmission.q4 := []; QuizSubmission.q5 := []; QuizSubmission.q6 := [];
     QuizSubmission.q7 := []; QuizSubmission.q8 := []; QuizSubmission.q9 := [];
     QuizSubmission.q10 := []; QuizSubmission.q11 := []; QuizSubmission.q12 := [];
     QuizSubmission.q13 := [];
     QuizSubmission.c1 := 1; QuizSubmission.c2 := 2; QuizSubmission.c3 := 3;
     QuizSubmission.c4 := 4; QuizSubmission.c5 := 5 |}.

Definition upload_a (q1 : list Z) : QuizSubmission.t := upload_of "a@x.org" q1.

(** A service that has stored nothing yet. *)
Definition empty_world : World :=
  {| users := []; quiz_submissions := []; pdf_files := []; chapter_observations := [];
     last_push_time := 0; ticks := 0; uuids := 0; events := [] |}.

(** What [/upload] answers. *)
Definition saved : json := JDict [("message", JStr "Quiz submission saved successfully")].

(** What [/update-observation] answers. *)
Definition updated : json := JDict [("message", JStr "Observation data added or updated")].

(** The character occurs in the string. *)
Fixpoint has_char (c : ascii) (s : string) : bool :=
  match s with
  | "" => false
  | String c' s' => Ascii.eqb c' c || has_char c s'
  end.

(** What [/bulk-upload] answers for [n] items. *)
Definition uploaded (n : nat) : json :=
  JDict [("message", JStr ("Successfully uploaded " ++ str_of_nat n ++ " quiz submissions"))].

(** The world after [n] more readings of the clock. *)
Definition advance (n : nat) (w : World) : World :=
  {| users := users w; quiz_submissions := quiz_submissions w;
     pdf_files := pdf_files w; chapter_observations := chapter_observations w;
     last_push_time := last_push_time w; ticks := n + ticks w; uuids := uuids w;
     events := events w |}.

(** The stored record has the answers of the bulk item. *)
Definition same_answers (s : Quiz.t) (item : BulkSubmissionItem.t) : Prop :=
  Quiz.q1 s = BulkSubmissionItem.q1 item /\ Quiz.q2 s = BulkSubmissionItem.q2 item
  /\ Quiz.q3 s = BulkSubmissionItem.q3 item /\ Quiz.q4 s = BulkSubmissionItem.q4 item
  /\ Quiz.q5 s = BulkSubmissionItem.q5 item /\ Quiz.q6 s = BulkSubmissionItem.q6 item
  /\ Quiz.q7 s = BulkSubmissionItem.q7 item /\ Quiz.q8 s = BulkSubmissionItem.q8 item
  /\ Quiz.q9 s = BulkSubmissionItem.q9 item /\ Quiz.q10 s = BulkSubmissionItem.q10 item
  /\ Quiz.q11 s = BulkSubmissionItem.q11 item /\ Quiz.q12 s = BulkSubmissionItem.q12 item
  /\ Quiz.q13 s = BulkSubmissionItem.q13 item
  /\ Quiz.c1 s = BulkSubmissionItem.c1 item /\ Quiz.c2 s = BulkSubmissionItem.c2 item
  /\ Quiz.c3 s = BulkSubmissionItem.c3 item /\ Quiz.c4 s = BulkSubmissionItem.c4 item
  /\ Quiz.c5 s = BulkSubmissionItem.c5 item.

(** Every character of the string passes the test. *)
Fixpoint all_chars (test : ascii -> bool) (s : string) : bool :=
  match s with
  | "" => true
  | String c s' => test c && all_chars test s'
  end.

(** A character that JSON text can hold as it is: a digit or a lower-case
    letter from a to f. *)
Definition is_hex_lower (c : ascii) : bool :=
  let n := N_of_ascii c in
  ((48 <=? n)%N && (n <=? 57)%N) || ((97 <=? n)%N && (n <=? 102)%N).

(** A bulk request of two items, and a file of three bytes. *)
Definition bulk_item_of (q1 : list Z) : BulkSubmissionItem.t :=
  {| BulkSubmissionItem.q1 := q1; BulkSubmissionItem.q2 := [];
     BulkSubmissionItem.q3 := []; BulkSubmissionItem.q4 := [];
     BulkSubmissionItem.q5 := []; BulkSubmissionItem.q6 := [];
     BulkSubmissionItem.q7 := []; BulkSubmissionItem.q8 := [];
     BulkSubmissionItem.q9 := []; BulkSubmissionItem.q10 := [];
     BulkSubmissionItem.q11 := []; BulkSubmissionItem.q12 := [];
     BulkSubmissionItem.q13 := [];
     BulkSubmissionItem.c1 := 0; BulkSubmissionItem.c2 := 0;
     BulkSubmissionItem.c3 := 0; BulkSubmissionItem.c4 := 0;
     BulkSubmissionItem.c5 := 0 |}.

Definition bulk_of_two : BulkUploadRequest.t :=
  {| BulkUploadRequest.chapter := "C2"; BulkUploadRequest.school := "S";
     BulkUploadRequest.submissions := [bulk_item_of [1]; bulk_item_of [0; 1]]%Z |}.

Definition three_bytes : UploadFile.t :=
  {| UploadFile.filename := "a.pdf";
     UploadFile.content := [Byte.x25; Byte.x50; Byte.xff] |}.

(** The [total_submissions] that a chapter's value carries, and their sum
    over an all-chapters mapping. *)
Definition total_submissions_of (value : json) : Z :=
  match member value "total_submissions" with
  | Some (JInt n) => n
  | _ => 0%Z
  end.

Fixpoint sum_totals (mapping : dict json) : Z :=
  match mapping with
  | [] => 0%Z
  | (_, value) :: mapping' => (total_submissions_of value + sum_totals mapping')%Z
  end.

(** A well-formed observation request. *)
Definition note_for_C1 : ObservationBody.t :=
  {| ObservationBody.chapter := Some "C1";
     ObservationBody.data := Some (JDict [("note", JStr "ok")]) |}.

(** A key of the body is missing when it is not there or its value is
    false in Python. *)
Definition missing (x : option json) : Prop :=
  x = None \/ exists v, x = Some v /\ falsy v.

(** The small world with an observation file that holds one record under a
    chapter name and one under a number. *)
Definition small_raw_world : RawWorld :=
  {| observation_file :=
       [{| Stored.chapter := JInt 7; Stored.data := JStr "seven";
           Stored.updated_at := "2023-01-01T00:00:00" |};
        {| Stored.chapter := JStr "C1"; Stored.data := JStr "old";
           Stored.updated_at := "2023-01-01T00:00:00" |}];
     typed_world :=
       {| users := [admin];
          quiz_submissions := quiz_submissions small_world;
          pdf_files := [];
          chapter_observations :=
            [{| Observation.chapter := "C1"; Observation.data := JStr "old";
                Observation.updated_at := "2023-01-01T00:00:00" |}];
          last_push_time := 0;
          ticks := 0; uuids := 0; events := [] |} |}.

(** ** Dictionaries built by a loop *)

Lemma dict_set_fresh {V : Type} (d : dict V) k v :
  ~ In k (keys d) -> dict_set d k v = d ++ [(k, v)].
Proof.
  induction d as [|[k' v'] d IH]; simpl; intros Hk; [reflexivity|].
  destruct (String.eqb_spec k' k) as [-> |_].
  - exfalso; apply Hk; now left.
  - rewrite IH; [reflexivity|]. intros Hin; apply Hk; now right.
Qed.

Lemma fold_dict_set {X V : Type} (key : X -> string) (val : X -> V) (l : list X) :
  forall d0,
    NoDup (map key l) ->
    (forall x, In x l -> ~ In (key x) (keys d0)) ->
    fold_left (fun d x => dict_set d (key x) (val x)) l d0
    = d0 ++ map (fun x => (key x, val x)) l.
Proof.
  induction l as [|x l IH]; simpl; intros d0 Hnd Hfresh.
  - now rewrite app_nil_r.
  - inversion Hnd as [|? ? Hx Hl]; subst.
    rewrite dict_set_fresh by (apply Hfresh; now left).
    rewrite IH; [now rewrite <- app_assoc| assumption |].
    intros y Hy. unfold keys. rewrite map_app, in_app_iff. simpl.
    intros [Hin|[Heq|[]]].
    + apply (Hfresh y); [now right | exact Hin].
    + apply Hx. rewrite Heq. now apply in_map.
Qed.

Lemma dict_get_map_in {X V : Type} (key : X -> string) (val : X -> V) (l : list X) k v :
  dict_get (map (fun x => (key x, val x)) l) k = Some v ->
  exists x, In x l /\ key x = k /\ val x = v.
Proof.
  induction l as [|x l IH]; simpl; [discriminate|].
  destruct (String.eqb_spec (key x) k) as [Hk|_].
  - intros [= <-]. exists x. auto.
  - intros H. destruct (IH H) as (y & Hy & Hk & Hv). exists y. auto.
Qed.

Lemma dict_get_map_key {X V : Type} (key : X -> string) (val : X -> V) (l : list X) x :
  In x l ->
  (forall y, In y l -> key y = key x -> y = x) ->
  dict_get (map (fun y => (key y, val y)) l) (key x) = Some (val x).
Proof.
  induction l as [|y l IH]; simpl; [contradiction|].
  intros Hin Hinj.
  destruct (String.eqb_spec (key y) (key x)) as [Hk|Hk].
  - rewrite (Hinj y (or_introl eq_refl) Hk). reflexivity.
  - destruct Hin as [-> |Hin]; [congruence|].
    apply IH; [assumption|]. intros z Hz. apply Hinj. now right.
Qed.

Lemma dict_get_map_none {X V : Type} (key : X -> string) (val : X -> V) (l : list X) k :
  ~ In k (map key l) -> dict_get (map (fun y => (key y, val y)) l) k = None.
Proof.
  induction l as [|y l IH]; simpl; [reflexivity|].
  intros Hk. destruct (String.eqb_spec (key y) k) as [Heq|_].
  - exfalso. apply Hk. now left.
  - apply IH. intros Hin. apply Hk. now right.
Qed.

(** ** Decimal numerals *)

Lemma to_uint_nonnil n : Nat.to_uint n <> Decimal.Nil.
Proof.
  rewrite <- (DecimalNat.Unsigned.of_to n) at 1.
  rewrite DecimalNat.Unsigned.to_of. apply DecimalFacts.unorm_nonnil.
Qed.

Lemma str_of_nat_inj n m : str_of_nat n = str_of_nat m -> n = m.
Proof.
  unfold str_of_nat. intros H.
  apply DecimalNat.Unsigned.to_uint_inj.
  apply (f_equal NilZero.uint_of_string) in H.
  rewrite !NilZero.usu in H by apply to_uint_nonnil.
  now injection H.
Qed.

Lemma q_key_inj n m : q_key n = q_key m -> n = m.
Proof. unfold q_key. simpl. intros [= H]. now apply str_of_nat_inj. Qed.

Lemma ride_key_inj n m : ride_key n = ride_key m -> n = m.
Proof. unfold ride_key. simpl. intros [= H]. now apply str_of_nat_inj. Qed.

Lemma NoDup_map_inj {X Y : Type} (f : X -> Y) (l : list X) :
  (forall x y, f x = f y -> x = y) -> NoDup l -> NoDup (map f l).
Proof.
  intros Hinj Hnd. induction Hnd as [|x l Hx _ IH]; simpl; constructor; [|exact IH].
  rewrite in_map_iff. intros (y & Hy & Hin). apply Hinj in Hy. now subst.
Qed.

(** ** The statistics as tables *)

Lemma rides_table subs q_num :
  question_stats subs q_num
  = JDict [("total_submissions", JInt (Z.of_nat (List.length subs)));
           ("rides", JDict (map (fun r => (ride_key r, ride_entry subs q_num r))
                                (seq 0 7)))].
Proof.
  unfold question_stats.
  rewrite (fold_dict_set ride_key (ride_entry subs q_num)).
  - reflexivity.
  - apply NoDup_map_inj; [exact ride_key_inj | apply seq_NoDup].
  - intros x _ [].
Qed.

Lemma stats_table subs :
  stats subs = map (fun q => (q_key q, question_stats subs q)) (seq 1 13).
Proof.
  unfold stats.
  rewrite (fold_dict_set q_key (question_stats subs)).
  - reflexivity.
  - apply NoDup_map_inj; [exact q_key_inj | apply seq_NoDup].
  - intros x _ [].
Qed.

(** ** Counting *)

Lemma answered_has_at q_num r v s : answered q_num r v s = true <-> has_at q_num r v s.
Proof.
  unfold answered, has_at. rewrite andb_true_iff, Nat.ltb_lt, Z.eqb_eq.
  split; intros [Hlen Hv]; split; try assumption.
  - rewrite (nth_error_nth' _ 0%Z Hlen). now rewrite Hv.
  - rewrite (nth_error_nth' _ 0%Z Hlen) in Hv. now injection Hv.
Qed.

Lemma counts_filter {A : Type} (f g : A -> bool) (Q P : A -> Prop) (l : list A) :
  (forall x, f x = true <-> Q x) ->
  (forall x, g x = true <-> P x) ->
  counts (fun x => Q x /\ P x) l (count_if g (filter f l)).
Proof.
  intros Hf Hg. unfold count_if.
  induction l as [|x l IH]; simpl; [constructor|].
  destruct (f x) eqn:Efx; simpl.
  - destruct (g x) eqn:Egx; simpl.
    + apply counts_in; [|exact IH]. split; [now apply Hf | now apply Hg].
    + apply counts_out; [|exact IH]. intros [_ HP]. apply Hg in HP. congruence.
  - apply counts_out; [|exact IH]. intros [HQ _]. apply Hf in HQ. congruence.
Qed.

Lemma counts_unique {A : Type} (P : A -> Prop) (l : list A) n m :
  counts P l n -> counts P l m -> n = m.
Proof.
  intros Hn. revert m.
  induction Hn as [|x l n Hx _ IH|x l n Hx _ IH]; intros m Hm;
    inversion Hm; subst; try contradiction; auto.
Qed.

Lemma in_chapter_eqb chapter s : (Quiz.chapter s =? chapter) = true <-> in_chapter chapter s.
Proof. apply String.eqb_eq. Qed.

Lemma nonempty_filter {A : Type} (f : A -> bool) (l : list A) :
  nonempty (filter f l) = true <-> exists x, In x l /\ f x = true.
Proof.
  split.
  - destruct (filter f l) as [|x l'] eqn:E; [discriminate|]. intros _.
    exists x. apply filter_In. rewrite E. now left.
  - intros (x & Hx). apply filter_In in Hx.
    destruct (filter f l); [contradiction | reflexivity].
Qed.

Lemma found_find_one {A : Type} (query : A -> bool) (l : list A) :
  found (find_one l query) = true <-> exists x, In x l /\ query x = true.
Proof.
  unfold find_one. split.
  - destruct (find query l) as [x|] eqn:E; [|discriminate]. intros _.
    exists x. now apply find_some in E.
  - intros (x & Hin & Hq). destruct (find query l) eqn:E; [reflexivity|].
    rewrite (find_none _ _ E x Hin) in Hq. discriminate.
Qed.

Lemma has_data_guard chapter submissions observations :
  negb (nonempty (chapter_submissions_of submissions chapter))
  && negb (found (chapter_observation_of observations chapter)) = false
  <-> has_data chapter submissions observations.
Proof.
  unfold has_data, observed, chapter_submissions_of, chapter_observation_of.
  rewrite andb_false_iff, !negb_false_iff, nonempty_filter, found_find_one.
  split; (intros [(x & Hin & Hx)|(x & Hin & Hx)]; [left|right]; exists x; split; auto);
    now apply String.eqb_eq.
Qed.

(** ** Reading the statistics out of the response *)

Lemma stats_lookup subs q r :
  (1 <= q <= 13)%nat -> (r <= 6)%nat ->
  at_path (JDict (stats subs)) [q_key q; "rides"; ride_key r]
  = Some (ride_entry subs q r).
Proof.
  intros Hq Hr. rewrite stats_table. cbn [at_path member].
  rewrite (dict_get_map_key q_key (question_stats subs)).
  - rewrite rides_table. cbn [member dict_get String.eqb Ascii.eqb Bool.eqb].
    rewrite (dict_get_map_key ride_key (ride_entry subs q)); [reflexivity| |].
    + apply in_seq. lia.
    + intros y _ Hy. now apply ride_key_inj.
  - apply in_seq. lia.
  - intros y _ Hy. now apply q_key_inj.
Qed.

Lemma stats_lookup_inv subs qk rk entry :
  at_path (JDict (stats subs)) [qk; "rides"; rk] = Some entry ->
  exists q r, (1 <= q <= 13)%nat /\ (r <= 6)%nat /\ qk = q_key q /\ rk = ride_key r
              /\ entry = ride_entry subs q r.
Proof.
  rewrite stats_table. cbn [at_path member].
  destruct (dict_get _ qk) as [qs|] eqn:Eq; [|discriminate].
  apply dict_get_map_in in Eq. destruct Eq as (q & Hq & <- & <-).
  rewrite rides_table. cbn [member dict_get String.eqb Ascii.eqb Bool.eqb].
  destruct (dict_get _ rk) as [e|] eqn:Er; [|discriminate].
  apply dict_get_map_in in Er. destruct Er as (r & Hr & <- & <-).
  intros [= <-]. apply in_seq in Hq, Hr.
  exists q, r. repeat split; try lia.
Qed.

(** ** The single-chapter statistics *)

(** C1.  For a chapter that has data, every question [q] in 1..13 and every
    ride [r] in 0..6 has an entry in the response of the single-chapter
    aggregation; its [ones] is the number of submissions of the chapter whose
    [q]-th sequence is longer than [r] and holds 1 at [r], its [zeros] the
    number of those that hold 0 there, and its [total] their sum, so that a
    submission whose sequence is shorter than [r+1] is in neither count.  A
    chapter without data has no entry (and no submission to count).  For the
    two submissions [{q1:[1,0,1]}] and [{q1:[1,1]}] of chapter C1, ride_0 of
    q1 is [{ones:2, zeros:0, total:2}] and ride_2 is [{ones:1, zeros:0,
    total:1}]. *)
Theorem chapter_data_counts
    (chapter : string) (submissions : list Quiz.t) (observations : list Observation.t)
    (q r : nat) (Hq : (1 <= q <= 13)%nat) (Hr : (r <= 6)%nat) :
  (exists ones zeros : nat,
      counts (fun s => in_chapter chapter s /\ has_at q r 1 s) submissions ones
      /\ counts (fun s => in_chapter chapter s /\ has_at q r 0 s) submissions zeros
      /\ (has_data chapter submissions observations ->
          at_path (chapter_data chapter submissions observations)
                  ["question_stats"; q_key q; "rides"; ride_key r]
          = Some (ride_json (Z.of_nat ones) (Z.of_nat zeros) (Z.of_nat (ones + zeros))))
      /\ (~ has_data chapter submissions observations ->
          ones = 0%nat /\ zeros = 0%nat
          /\ at_path (chapter_data chapter submissions observations)
                     ["question_stats"; q_key q; "rides"; ride_key r] = None))
  /\ (let subs := [submission_C1 "a@x.org" [1; 0; 1]; submission_C1 "b@x.org" [1; 1]]%Z in
      at_path (chapter_data "C1" subs []) ["question_stats"; "q1"; "rides"; "ride_0"]
      = Some (ride_json 2 0 2)
      /\ at_path (chapter_data "C1" subs []) ["question_stats"; "q1"; "rides"; "ride_2"]
         = Some (ride_json 1 0 1)).
Proof.
  split; [|split; reflexivity].
  set (subs := chapter_submissions_of submissions chapter).
  exists (count_if (answered q r 1) subs), (count_if (answered q r 0) subs).
  split; [|split; [|split]].
  - apply counts_filter; [apply in_chapter_eqb | intros; apply answered_has_at].
  - apply counts_filter; [apply in_chapter_eqb | intros; apply answered_has_at].
  - intros Hdata. apply has_data_guard in Hdata.
    unfold chapter_data. rewrite Hdata.
    change (at_path (JDict (stats subs)) [q_key q; "rides"; ride_key r]
            = Some (ride_json (Z.of_nat (count_if (answered q r 1) subs))
                              (Z.of_nat (count_if (answered q r 0) subs))
                              (Z.of_nat (count_if (answered q r 1) subs
                                         + count_if (answered q r 0) subs)))).
    rewrite stats_lookup by assumption.
    unfold ride_entry, ride_json. now rewrite Nat2Z.inj_add.
  - intros Hno.
    assert (Hguard : negb (nonempty subs)
                     && negb (found (chapter_observation_of observations chapter)) = true).
    { destruct (negb (nonempty subs) && negb (found _)) eqn:E; [reflexivity|].
      exfalso. apply Hno. now apply has_data_guard. }
    apply andb_true_iff in Hguard. destruct Hguard as [Hsubs Hobs].
    assert (Hnil : subs = []) by (destruct subs; [reflexivity | discriminate]).
    unfold chapter_data. fold subs. rewrite Hsubs, Hobs, Hnil. repeat split.
Qed.

(** At two submissions of chapter C1, question 1 and ride 2. *)
Lemma chapter_data_counts_witness :
  (1 <= 1 <= 13)%nat /\ (2 <= 6)%nat
  /\ exists ones zeros : nat,
      counts (fun s => in_chapter "C1" s /\ has_at 1 2 1 s)
             [submission_C1 "a@x.org" [1; 0; 1]; submission_C1 "b@x.org" [1; 1]]%Z ones
      /\ counts (fun s => in_chapter "C1" s /\ has_at 1 2 0 s)
                [submission_C1 "a@x.org" [1; 0; 1]; submission_C1 "b@x.org" [1; 1]]%Z zeros
      /\ ones = 1%nat /\ zeros = 0%nat.
Proof.
  split; [lia|]. split; [lia|].
  destruct (chapter_data_counts "C1"
              [submission_C1 "a@x.org" [1; 0; 1]; submission_C1 "b@x.org" [1; 1]]%Z
              [] 1 2 ltac:(lia) ltac:(lia)) as [(ones & zeros & H1 & H0 & Hyes & _) _].
  exists ones, zeros. split; [exact H1|]. split; [exact H0|].
  assert (Hdata : has_data "C1"
            [submission_C1 "a@x.org" [1; 0; 1]; submission_C1 "b@x.org" [1; 1]]%Z []).
  { left. eexists. split; [left; reflexivity | reflexivity]. }
  specialize (Hyes Hdata).
  change (Some (ride_json 1 0 1)
          = Some (ride_json (Z.of_nat ones) (Z.of_nat zeros) (Z.of_nat (ones + zeros))))
    in Hyes.
  injection Hyes as Hones Hzeros _. split; lia.
Defined.

Lemma count_if_disjoint {A : Type} (f g : A -> bool) (l : list A) :
  (forall x, f x = true -> g x = false) ->
  (count_if f l + count_if g l <= List.length l)%nat
  /\ ((count_if f l + count_if g l = List.length l)%nat ->
      forall x, In x l -> f x = true \/ g x = true).
Proof.
  intros Hfg. unfold count_if.
  induction l as [|x l [IHle IHeq]]; simpl.
  - split; [lia | intros _ x []].
  - destruct (f x) eqn:Ef; [rewrite (Hfg x Ef)|destruct (g x) eqn:Eg]; simpl.
    + split; [lia|]. intros Heq y [<- |Hy]; [now left | apply IHeq; [lia | exact Hy]].
    + split; [lia|]. intros Heq y [<- |Hy]; [now right | apply IHeq; [lia | exact Hy]].
    + split; [lia|]. intros Heq. lia.
Qed.

Lemma answered_disjoint q_num r s : answered q_num r 1 s = true -> answered q_num r 0 s = false.
Proof.
  unfold answered. rewrite andb_true_iff, Z.eqb_eq. intros [_ ->].
  now rewrite andb_false_r.
Qed.

Lemma answered_long q_num r v s :
  answered q_num r v s = true -> (r < List.length (Quiz.q q_num s))%nat.
Proof. unfold answered. rewrite andb_true_iff, Nat.ltb_lt. tauto. Qed.

Lemma counts_length_filter {A : Type} (f : A -> bool) (P : A -> Prop) (l : list A) :
  (forall x, f x = true <-> P x) -> counts P l (List.length (filter f l)).
Proof.
  intros Hf. induction l as [|x l IH]; simpl; [constructor|].
  destruct (f x) eqn:E; simpl.
  - apply counts_in; [now apply Hf | exact IH].
  - apply counts_out; [|exact IH]. intros HP. apply Hf in HP. congruence.
Qed.

(** C2.  Every question/ride pair that the single-chapter response holds is
    one of the 13 x 7 pairs; its entry has [ones + zeros = total] and [total]
    is at most [total_submissions] (the number of submissions of the chapter,
    which the response gives for the chapter and for every question); when
    [total] equals [total_submissions], every submission of the chapter has,
    for that question, a sequence longer than the ride index. *)
Theorem ride_count_invariant
    (chapter : string) (submissions : list Quiz.t) (observations : list Observation.t)
    (qk rk : string) (entry : json)
    (Hentry : at_path (chapter_data chapter submissions observations)
                      ["question_stats"; qk; "rides"; rk] = Some entry) :
  exists (q r n : nat) (ones zeros total total_submissions : Z),
    (1 <= q <= 13)%nat /\ (r <= 6)%nat /\ qk = q_key q /\ rk = ride_key r
    /\ entry = ride_json ones zeros total
    /\ at_path (chapter_data chapter submissions observations)
               ["question_stats"; qk; "total_submissions"] = Some (JInt total_submissions)
    /\ at_path (chapter_data chapter submissions observations) ["total_submissions"]
       = Some (JInt total_submissions)
    /\ counts (in_chapter chapter) submissions n /\ total_submissions = Z.of_nat n
    /\ (0 <= ones)%Z /\ (0 <= zeros)%Z
    /\ (ones + zeros = total)%Z
    /\ (total <= total_submissions)%Z
    /\ (total = total_submissions ->
        forall s, In s submissions -> in_chapter chapter s ->
                  (r < List.length (Quiz.q q s))%nat).
Proof.
  unfold chapter_data in *.
  set (subs := chapter_submissions_of submissions chapter) in *.
  destruct (negb (nonempty subs) && negb (found _)); [discriminate|].
  change (at_path (JDict (stats subs)) [qk; "rides"; rk] = Some entry) in Hentry.
  apply stats_lookup_inv in Hentry.
  destruct Hentry as (q & r & Hq & Hr & -> & -> & ->).
  destruct (count_if_disjoint (answered q r 1) (answered q r 0) subs
              (answered_disjoint q r)) as [Hle Heq].
  exists q, r, (List.length subs),
    (Z.of_nat (count_if (answered q r 1) subs)),
    (Z.of_nat (count_if (answered q r 0) subs)),
    (Z.of_nat (count_if (answered q r 1) subs) + Z.of_nat (count_if (answered q r 0) subs))%Z,
    (Z.of_nat (List.length subs)).
  repeat match goal with |- _ /\ _ => split end;
    try reflexivity; try assumption; try lia.
  - change (at_path (JDict (stats subs)) [q_key q; "total_submissions"]
            = Some (JInt (Z.of_nat (List.length subs)))).
    rewrite stats_table. cbn [at_path member].
    rewrite (dict_get_map_key q_key (question_stats subs)); [reflexivity| |].
    + apply in_seq. lia.
    + intros y _ Hy. now apply q_key_inj.
  - apply counts_length_filter. apply in_chapter_eqb.
  - intros Htotal s Hin Hs.
    assert (Hs' : In s subs) by (apply filter_In; split; [exact Hin | now apply in_chapter_eqb]).
    destruct (Heq ltac:(lia) s Hs') as [Ha|Ha]; exact (answered_long _ _ _ _ Ha).
Qed.

(** At the two submissions of chapter C1: ride_0 of q1 holds 2 = 2 + 0. *)
Lemma ride_count_invariant_witness :
  at_path (chapter_data "C1"
             [submission_C1 "a@x.org" [1; 0; 1]; submission_C1 "b@x.org" [1; 1]]%Z [])
          ["question_stats"; "q1"; "rides"; "ride_0"] = Some (ride_json 2 0 2)
  /\ exists total total_submissions : Z,
      (total <= total_submissions)%Z
      /\ at_path (chapter_data "C1"
                    [submission_C1 "a@x.org" [1; 0; 1]; submission_C1 "b@x.org" [1; 1]]%Z [])
                 ["total_submissions"] = Some (JInt total_submissions).
Proof.
  split; [reflexivity|].
  destruct (ride_count_invariant "C1"
              [submission_C1 "a@x.org" [1; 0; 1]; submission_C1 "b@x.org" [1; 1]]%Z []
              "q1" "ride_0" (ride_json 2 0 2) eq_refl)
    as (q & r & n & ones & zeros & total & ts & _ & _ & _ & _ & _ & _ & Hts & _ & _ & _ & _ & _
        & Hle & _).
  exists total, ts. split; [exact Hle | exact Hts].
Defined.

(** C4.  For a chapter with no submission and no observation the
    single-chapter aggregation returns exactly [{chapter, total_submissions:
    0, question_stats: {}, observation: null}]; it is the response of
    [/chapter-data] to a user of such a chapter (other than the sentinel
    ALL_Chapter). *)
Theorem chapter_data_empty
    (chapter : string) (submissions : list Quiz.t) (observations : list Observation.t)
    (Hsubs : forall s, In s submissions -> ~ in_chapter chapter s)
    (Hobs : ~ observed observations chapter) :
  let nothing := JDict [("chapter", JStr chapter);
                        ("total_submissions", JInt 0);
                        ("question_stats", JDict []);
                        ("observation", JNull)] in
  chapter_data chapter submissions observations = nothing
  /\ forall (w : World) (user_id : string) (user : User.t),
      quiz_submissions w = submissions ->
      chapter_observations w = observations ->
      user_id <> "" ->
      find_one (users w) (fun item => User.user_id item =? user_id) = Some user ->
      User.chapter user = chapter ->
      chapter <> "ALL_Chapter" ->
      get_chapter_data {| ChapterDataPayload.user_id := Some user_id |} w
      = (Ok nothing, w).
Proof.
  intros nothing.
  assert (Hpure : chapter_data chapter submissions observations = nothing).
  { unfold chapter_data.
    destruct (negb (nonempty _) && negb (found _)) eqn:E; [reflexivity|].
    apply has_data_guard in E. destruct E as [(s & Hin & Hs)|Ho].
    - now destruct (Hsubs s Hin).
    - now destruct Hobs. }
  split; [exact Hpure|].
  intros w user_id user Hq Ho Hid Hfind Hch Hall.
  unfold get_chapter_data. cbn [ChapterDataPayload.user_id str_truthy str_value].
  destruct (String.eqb_spec user_id "") as [|_]; [contradiction|].
  cbn [negb]. unfold bind, read_json_file, ret. rewrite Hfind.
  unfold chapter_response. rewrite Hch, Hq, Ho.
  destruct (String.eqb_spec chapter "ALL_Chapter") as [|_]; [contradiction|].
  now rewrite Hpure.
Qed.

(** Chapter Z has neither a submission nor an observation. *)
Lemma chapter_data_empty_witness :
  (forall s, In s [submission_C1 "a@x.org" [1]%Z] -> ~ in_chapter "Z" s)
  /\ ~ observed [] "Z"
  /\ chapter_data "Z" [submission_C1 "a@x.org" [1]%Z] []
     = JDict [("chapter", JStr "Z"); ("total_submissions", JInt 0);
              ("question_stats", JDict []); ("observation", JNull)].
Proof.
  assert (Hs : forall s, In s [submission_C1 "a@x.org" [1]%Z] -> ~ in_chapter "Z" s).
  { intros s [<- |[]] H. discriminate H. }
  assert (Ho : ~ observed [] "Z").
  { intros (o & [] & _). }
  split; [exact Hs|]. split; [exact Ho|].
  exact (proj1 (chapter_data_empty "Z" [submission_C1 "a@x.org" [1]%Z] [] Hs Ho)).
Defined.

(** ** The order of strings and the sort *)

Lemma str_lt_as_OT a b : str_lt a b <-> OrdersEx.String_as_OT.lt a b.
Proof.
  unfold str_lt, String.ltb, OrdersEx.String_as_OT.lt.
  change (a ?= b)%string with (OrdersEx.String_as_OT.compare a b).
  destruct (OrdersEx.String_as_OT.compare a b); split; congruence.
Qed.

Lemma str_lt_trans a b c : str_lt a b -> str_lt b c -> str_lt a c.
Proof.
  rewrite !str_lt_as_OT. apply (StrictOrder_Transitive (R := OrdersEx.String_as_OT.lt)).
Qed.

Lemma str_lt_irrefl a : ~ str_lt a a.
Proof.
  rewrite str_lt_as_OT. apply (StrictOrder_Irreflexive (R := OrdersEx.String_as_OT.lt)).
Qed.

Lemma str_le_cases a b : str_le a b <-> str_lt a b \/ a = b.
Proof.
  unfold str_le, str_lt, String.leb, String.ltb.
  destruct (a ?= b)%string eqn:E.
  - apply String.compare_eq_iff in E. intuition.
  - intuition.
  - split; [discriminate|]. intros [H| ->]; [discriminate|].
    exfalso. apply (str_lt_irrefl b). unfold str_lt, String.ltb.
    rewrite String.compare_antisym, E. reflexivity.
Qed.

Lemma str_le_trans a b c : str_le a b -> str_le b c -> str_le a c.
Proof.
  rewrite !str_le_cases. intros [Hab| ->] [Hbc| ->]; auto.
  left. eapply str_lt_trans; eassumption.
Qed.

Lemma str_le_flip a b : (a <=? b)%string = false -> str_le b a.
Proof.
  intros H. destruct (String.leb_total a b) as [H'|H']; [congruence | exact H'].
Qed.

Lemma insert_sorted_perm x l : Permutation (x :: l) (insert_sorted x l).
Proof.
  induction l as [|y l IH]; simpl; [reflexivity|].
  destruct (x <=? y)%string; [reflexivity|].
  rewrite perm_swap. now apply perm_skip.
Qed.

Lemma sort_perm l : Permutation l (sort l).
Proof.
  induction l as [|x l IH]; simpl; [reflexivity|].
  rewrite <- insert_sorted_perm. now apply perm_skip.
Qed.

Lemma insert_sorted_sorted x l :
  StronglySorted str_le l -> StronglySorted str_le (insert_sorted x l).
Proof.
  induction 1 as [|y l Hl IH Hy]; simpl.
  - repeat constructor.
  - destruct (x <=? y)%string eqn:E.
    + constructor; [now constructor|]. constructor; [exact E|].
      eapply Forall_impl; [|exact Hy]. intros z. now apply str_le_trans.
    + constructor; [exact IH|].
      rewrite <- (insert_sorted_perm x l). constructor; [|exact Hy].
      now apply str_le_flip.
Qed.

Lemma sort_sorted l : StronglySorted str_le (sort l).
Proof.
  induction l as [|x l IH]; simpl; [constructor | now apply insert_sorted_sorted].
Qed.

Lemma sorted_strict l : NoDup l -> StronglySorted str_le l -> StronglySorted str_lt l.
Proof.
  intros Hnd Hs. induction Hs as [|x l _ IH Hx]; [constructor|].
  inversion Hnd as [|? ? Hnin Hnd']; subst.
  constructor; [now apply IH|].
  rewrite Forall_forall in *. intros y Hy.
  destruct (proj1 (str_le_cases x y) (Hx y Hy)) as [Hlt| ->]; [exact Hlt | contradiction].
Qed.

(** ** The chapters of the all-chapters response *)

Lemma chapters_of_NoDup submissions observations :
  NoDup (chapters_of submissions observations).
Proof.
  unfold chapters_of. rewrite <- sort_perm. apply NoDup_nodup.
Qed.

Lemma chapters_of_sorted submissions observations :
  StronglySorted str_lt (chapters_of submissions observations).
Proof.
  apply sorted_strict; [apply chapters_of_NoDup | apply sort_sorted].
Qed.

Lemma chapters_of_In submissions observations c :
  In c (chapters_of submissions observations) <-> has_data c submissions observations.
Proof.
  unfold chapters_of, has_data, observed, in_chapter.
  rewrite <- sort_perm, nodup_In, in_app_iff, !in_map_iff.
  split; (intros [(x & H1 & H2)|(x & H1 & H2)]; [left|right]; exists x; auto).
Qed.

(** The value of one chapter in the all-chapters response. *)
Lemma all_chapter_data_table submissions observations :
  all_chapter_data submissions observations
  = map (fun c =>
           (c, JDict [("total_submissions",
                        JInt (Z.of_nat (List.length (chapter_submissions_of submissions c))));
                      ("question_stats", JDict (stats (chapter_submissions_of submissions c)));
                      ("observation",
                        observation_data (chapter_observation_of observations c))]))
        (chapters_of submissions observations).
Proof.
  unfold all_chapter_data.
  rewrite (fold_dict_set (fun c => c)
             (fun c => JDict [("total_submissions",
                               JInt (Z.of_nat (List.length (chapter_submissions_of submissions c))));
                              ("question_stats",
                               JDict (stats (chapter_submissions_of submissions c)));
                              ("observation",
                               observation_data (chapter_observation_of observations c))])).
  - reflexivity.
  - rewrite map_id. apply chapters_of_NoDup.
  - intros x _ [].
Qed.

Lemma all_chapter_data_keys submissions observations :
  keys (all_chapter_data submissions observations) = chapters_of submissions observations.
Proof.
  rewrite all_chapter_data_table. unfold keys. rewrite map_map. simpl. apply map_id.
Qed.




(** ** Looking a submission up by email *)

(** C10.  On the same submission set and email, [/check-mail] answers
    [exists: true] exactly when the list that [/email-data] returns is not
    empty; both select the submissions whose email is the given one, and
    neither changes the world. *)
Theorem check_mail_iff_email_data (w : World) (email : string) :
  exists (exists_ : bool) (selected : list Quiz.t),
    check_email_exists email w = (Ok (JDict [("exists", JBool exists_)]), w)
    /\ get_data_by_email email w
       = (Ok (JDict [("data", JList (map quiz_json selected))]), w)
    /\ (exists_ = true <-> map quiz_json selected <> [])
    /\ (exists_ = true <-> exists s, In s (quiz_submissions w) /\ has_email email s)
    /\ (forall s, In s selected <-> In s (quiz_submissions w) /\ has_email email s).
Proof.
  exists (found (find_one (quiz_submissions w) (fun item => Quiz.email item =? email))),
    (filter (fun s => Quiz.email s =? email) (quiz_submissions w)).
  assert (Hsel : forall s,
             In s (filter (fun s => Quiz.email s =? email) (quiz_submissions w))
             <-> In s (quiz_submissions w) /\ has_email email s).
  { intros s. rewrite filter_In. unfold has_email. now rewrite String.eqb_eq. }
  assert (Hex : found (find_one (quiz_submissions w) (fun item => Quiz.email item =? email))
                = true
                <-> exists s, In s (quiz_submissions w) /\ has_email email s).
  { rewrite found_find_one. unfold has_email.
    split; intros (s & Hin & Hs); exists s; split; auto; now apply String.eqb_eq. }
  split; [reflexivity|]. split; [reflexivity|].
  split; [|split; [exact Hex | exact Hsel]].
  split.
  - intros Hfound Hnil. apply Hex in Hfound. destruct Hfound as (s & Hs).
    apply Hsel in Hs. apply map_eq_nil in Hnil. rewrite Hnil in Hs. contradiction.
  - intros Hne. apply Hex.
    destruct (filter (fun s => Quiz.email s =? email) (quiz_submissions w))
      as [|s l] eqn:E; [contradiction|].
    exists s. apply Hsel. now left.
Qed.

(** ** What a handler leaves of the world *)

(** [sync_git] reads the clock once and touches no file. *)
Lemma sync_git_spec (env : Env) (commit_message : string) (w : World) :
  exists w',
    sync_git env commit_message w = (Ok tt, w')
    /\ users w' = users w
    /\ quiz_submissions w' = quiz_submissions w
    /\ pdf_files w' = pdf_files w
    /\ chapter_observations w' = chapter_observations w
    /\ ticks w' = S (ticks w)
    /\ uuids w' = uuids w
    /\ (events w' = events w \/ events w' = events w ++ [GitPush commit_message]).
Proof.
  unfold sync_git, bind, utcnow. cbn [last_push_time].
  destruct (_ <? _)%Z.
  - eexists. split; [reflexivity|]. cbn. repeat split; auto.
  - eexists. split; [reflexivity|]. cbn. repeat split; auto.
Qed.

Lemma find_one_none {A : Type} (query : A -> bool) (l : list A) (x : A) :
  found (find_one l query) = false -> In x l -> query x = false.
Proof.
  intros H Hin. destruct (query x) eqn:E; [|reflexivity].
  rewrite (proj2 (found_find_one query l)) in H; [discriminate | eauto].
Qed.

(** ** Signing up *)

(** C6.  [signup] fails, with status 400, exactly when some user has the
    email or some user has the chapter, and then the world is as it was.
    Otherwise it appends one user, made of the request, the next identifier
    of [uuid4] and the time, and returns it; no other file changes.  The
    identifier is the draw that this signup consumes, so it differs from the
    identifiers of all users when those came from earlier draws and [uuid4]
    does not repeat itself.  After a success every signup with that email or
    that chapter fails, however often it is repeated. *)
Theorem signup_conflict (env : Env) (w : World) (request : SignUpRequest.t) :
  let email := SignUpRequest.email request in
  let chapter_name := SignUpRequest.chapter_name request in
  let taken :=
    exists u, In u (users w) /\ (User.email u = email \/ User.chapter u = chapter_name) in
  let user :=
    {| User.email := email; User.user_id := uuid_source env (uuids w);
       User.chapter := chapter_name;
       User.created_at := isoformat (clock env (ticks w)) |} in
  ((exists status_code detail w',
       signup env request w = (HTTPException status_code detail, w')) <-> taken)
  /\ (forall status_code detail w',
         signup env request w = (HTTPException status_code detail, w') ->
         status_code = 400%Z /\ w' = w)
  /\ (forall (result : User.t) (w' : World),
         signup env request w = (Ok result, w') ->
         result = user
         /\ users w' = users w ++ [user]
         /\ quiz_submissions w' = quiz_submissions w
         /\ pdf_files w' = pdf_files w
         /\ chapter_observations w' = chapter_observations w
         /\ uuids w' = S (uuids w)
         /\ ((forall i j, uuid_source env i = uuid_source env j -> i = j) ->
             (forall u, In u (users w) ->
                        exists i, (i < uuids w)%nat /\ User.user_id u = uuid_source env i) ->
             forall u, In u (users w) -> User.user_id u <> User.user_id user)
         /\ forall (again : SignUpRequest.t) (n : nat),
             SignUpRequest.email again = email
             \/ SignUpRequest.chapter_name again = chapter_name ->
             after n (signup env again) w' = w'
             /\ exists detail, signup env again w' = (HTTPException 400 detail, w')).
Proof.
  intros email chapter_name taken user.
  assert (Hfail : forall (rq : SignUpRequest.t) (v : World),
             (exists u, In u (users v)
                        /\ (User.email u = SignUpRequest.email rq
                            \/ User.chapter u = SignUpRequest.chapter_name rq)) ->
             exists detail, signup env rq v = (HTTPException 400 detail, v)).
  { intros rq v (u & Hin & Hu). unfold signup, bind, read_json_file, raise.
    destruct (found (find_one (users v) (fun item => User.email item =? SignUpRequest.email rq)))
      eqn:Ee; [eauto|].
    destruct (found (find_one (users v)
                       (fun item => User.chapter item =? SignUpRequest.chapter_name rq)))
      eqn:Ec; [eauto|].
    exfalso. destruct Hu as [Hu|Hu].
    - apply find_one_none with (x := u) in Ee; [|exact Hin]. cbn in Ee.
      rewrite Hu, String.eqb_refl in Ee. discriminate.
    - apply find_one_none with (x := u) in Ec; [|exact Hin]. cbn in Ec.
      rewrite Hu, String.eqb_refl in Ec. discriminate. }
  assert (Hrun : (taken /\ exists detail, signup env request w = (HTTPException 400 detail, w))
                 \/ (~ taken /\ exists w',
                        signup env request w = (Ok user, w')
                        /\ users w' = users w ++ [user]
                        /\ quiz_submissions w' = quiz_submissions w
                        /\ pdf_files w' = pdf_files w
                        /\ chapter_observations w' = chapter_observations w
                        /\ uuids w' = S (uuids w))).
  { destruct (found (find_one (users w) (fun item => User.email item =? email))) eqn:Ee.
    { left. apply found_find_one in Ee. destruct Ee as (u & Hin & Hu).
      apply String.eqb_eq in Hu.
      assert (Ht : taken) by (exists u; auto). split; [exact Ht | now apply Hfail]. }
    destruct (found (find_one (users w) (fun item => User.chapter item =? chapter_name)))
      eqn:Ec.
    { left. apply found_find_one in Ec. destruct Ec as (u & Hin & Hu).
      apply String.eqb_eq in Hu.
      assert (Ht : taken) by (exists u; auto). split; [exact Ht | now apply Hfail]. }
    right. split.
    - intros (u & Hin & [Hu|Hu]).
      + apply find_one_none with (x := u) in Ee; [|exact Hin]. cbn in Ee.
        rewrite Hu, String.eqb_refl in Ee. discriminate.
      + apply find_one_none with (x := u) in Ec; [|exact Hin]. cbn in Ec.
        rewrite Hu, String.eqb_refl in Ec. discriminate.
    - unfold signup, bind at 1, read_json_file. fold email chapter_name.
      rewrite Ee, Ec. unfold bind, uuid4, utcnow, write_json_file, log, ret.
      cbn [store users quiz_submissions pdf_files chapter_observations last_push_time
           ticks uuids events fst snd]. fold user.
      match goal with
      | |- context [sync_git env ?m ?v] =>
          destruct (sync_git_spec env m v) as (w' & Hs & Hu & Hq & Hp & Ho & _ & Hd & _);
          rewrite Hs
      end.
      exists w'. cbn in Hu, Hq, Hp, Ho, Hd. repeat split; assumption. }
  split; [|split].
  - split.
    + intros (c & d & w' & Hex).
      destruct Hrun as [[Ht _]|[_ (v & Hok & _)]]; [exact Ht | congruence].
    + intros Ht. destruct (Hfail request w Ht) as (d & Hd). eauto.
  - intros c d w' Hex.
    destruct Hrun as [[_ (d' & Hd)]|[_ (v & Hok & _)]]; [|congruence].
    rewrite Hd in Hex. injection Hex as <- _ <-. auto.
  - intros result w' Hok.
    destruct Hrun as [[_ (d' & Hd)]|[_ (v & Hv & Hu & Hq & Hp & Ho & Hn)]]; [congruence|].
    rewrite Hv in Hok. injection Hok as <- <-.
    repeat match goal with |- _ /\ _ => split end; try assumption; try reflexivity.
    + intros Hinj Hdrawn u Hin Heq.
      destruct (Hdrawn u Hin) as (i & Hi & Hid).
      cbn in Heq. rewrite Hid in Heq. apply Hinj in Heq. lia.
    + intros again n H.
      assert (Hagain : exists detail, signup env again v = (HTTPException 400 detail, v)).
      { apply Hfail. exists user. rewrite Hu. split; [apply in_or_app; right; now left|].
        cbn. destruct H as [H|H]; [left | right]; now rewrite H. }
      split; [|exact Hagain].
      destruct Hagain as (d & Hd).
      induction n as [|n IH]; [reflexivity|]. cbn [after]. now rewrite Hd.
Qed.

(** In the small world a new chapter signs up once, and only once. *)
Lemma signup_conflict_witness :
  exists (user : User.t) (w' : World),
    signup small_env {| SignUpRequest.email := "new@x.org";
                        SignUpRequest.chapter_name := "C9" |} small_world
    = (Ok user, w')
    /\ users w' = [admin; user]
    /\ User.user_id user = "uuid-0"
    /\ exists detail,
        signup small_env {| SignUpRequest.email := "new@x.org";
                            SignUpRequest.chapter_name := "C9" |} w'
        = (HTTPException 400 detail, w').
Proof.
  destruct (signup small_env {| SignUpRequest.email := "new@x.org";
                                SignUpRequest.chapter_name := "C9" |} small_world)
    as [[user|c d] w'] eqn:E.
  - destruct (signup_conflict small_env small_world
                {| SignUpRequest.email := "new@x.org"; SignUpRequest.chapter_name := "C9" |})
      as (_ & _ & Hok).
    destruct (Hok user w' E) as (Huser & Husers & _ & _ & _ & _ & _ & Hagain).
    exists user, w'. split; [reflexivity|]. split; [now rewrite Husers, Huser|].
    split; [now rewrite Huser|].
    exact (proj2 (Hagain {| SignUpRequest.email := "new@x.org";
                            SignUpRequest.chapter_name := "C9" |} 0%nat
                         (or_introl eq_refl))).
  - vm_compute in E. discriminate E.
Defined.

(** ** Replacing the first match *)

Lemma find_one_split {A : Type} (query : A -> bool) (l : list A) (y : A) :
  find_one l query = Some y ->
  exists a b, l = a ++ y :: b /\ query y = true /\ forall x, In x a -> query x = false.
Proof.
  unfold find_one. induction l as [|x l IH]; simpl; [discriminate|].
  destruct (query x) eqn:E.
  - intros [= <-]. exists [], l. repeat split; [exact E | intros ? []].
  - intros H. destruct (IH H) as (a & b & -> & Hy & Ha).
    exists (x :: a), b. repeat split; [exact Hy|].
    intros z [<- |Hz]; [exact E | now apply Ha].
Qed.

Lemma find_one_first {A : Type} (query : A -> bool) (a b : list A) (y : A) :
  (forall x, In x a -> query x = false) -> query y = true ->
  find_one (a ++ y :: b) query = Some y.
Proof.
  unfold find_one. intros Ha Hy. induction a as [|x a IH]; simpl.
  - now rewrite Hy.
  - rewrite (Ha x (or_introl eq_refl)). apply IH. intros z Hz. apply Ha. now right.
Qed.

Lemma update_one_first {A : Type} (query : A -> bool) (update : A -> A)
    (a b : list A) (y : A) :
  (forall x, In x a -> query x = false) -> query y = true ->
  update_one (a ++ y :: b) query update = (a ++ update y :: b, true).
Proof.
  intros Ha Hy. induction a as [|x a IH]; simpl.
  - now rewrite Hy.
  - rewrite (Ha x (or_introl eq_refl)), IH; [reflexivity|].
    intros z Hz. apply Ha. now right.
Qed.

Lemma counts_app {A : Type} (P : A -> Prop) (l1 l2 : list A) n1 n2 :
  counts P l1 n1 -> counts P l2 n2 -> counts P (l1 ++ l2) (n1 + n2).
Proof.
  induction 1; simpl; intros H2; [exact H2 | apply counts_in | apply counts_out]; auto.
Qed.

Lemma counts_none {A : Type} (P : A -> Prop) (l : list A) :
  (forall x, In x l -> ~ P x) -> counts P l 0.
Proof.
  induction l as [|x l IH]; intros H; [constructor|].
  apply counts_out; [apply H; now left | apply IH; intros y Hy; apply H; now right].
Qed.

Lemma counts_zero {A : Type} (P : A -> Prop) (l : list A) :
  counts P l 0 -> forall x, In x l -> ~ P x.
Proof.
  intros H. remember 0%nat as n eqn:En. induction H as [|x l n Hx _ _|x l n Hx _ IH];
    [intros ? [] | discriminate |].
  intros y [<- |Hy]; [exact Hx | now apply IH].
Qed.

Lemma counts_split {A : Type} (P : A -> Prop) (a b : list A) (y : A) n :
  counts P (a ++ y :: b) n -> P y -> (n <= 1)%nat ->
  forall x, In x (a ++ b) -> ~ P x.
Proof.
  revert n. induction a as [|x a IH]; simpl; intros n H Hy Hn.
  - inversion H; subst; [|contradiction].
    assert (n0 = 0)%nat by lia. subst. now apply counts_zero.
  - inversion H as [|? ? m Hx Hm|? ? m Hx Hm]; subst.
    + exfalso. clear IH H. assert (m = 0)%nat by lia. subst.
      apply (counts_zero _ _ Hm y); [apply in_or_app; right; now left | exact Hy].
    + intros z [<- |Hz]; [exact Hx | now apply (IH n Hm Hy Hn)].
Qed.

(** ** Uploading a quiz *)

(** One upload: the first record with the email becomes the payload, or
    the payload goes last. *)
Lemma upload_quiz_spec (env : Env) (data : QuizSubmission.t) (w : World) :
  let quiz := quiz_of data (isoformat (clock env (ticks w))) in
  let query := fun item => Quiz.email item =? QuizSubmission.email data in
  exists w',
    upload_quiz env data w = (Ok saved, w')
    /\ ticks w' = S (S (ticks w))
    /\ users w' = users w
    /\ pdf_files w' = pdf_files w
    /\ chapter_observations w' = chapter_observations w
    /\ quiz_submissions w'
       = if found (find_one (quiz_submissions w) query)
         then fst (update_one (quiz_submissions w) query (fun _ => quiz))
         else quiz_submissions w ++ [quiz].
Proof.
  intros quiz query.
  unfold upload_quiz, bind, utcnow, read_json_file, write_json_file, log, ret.
  cbn [store users quiz_submissions pdf_files chapter_observations last_push_time
       ticks uuids events fst snd].
  match goal with
  | |- context [sync_git env ?m ?v] =>
      destruct (sync_git_spec env m v) as (w' & Hs & Hu & Hq & Hp & Ho & Ht & _);
      rewrite Hs
  end.
  exists w'. cbn in Hu, Hq, Hp, Ho, Ht. repeat split; assumption.
Qed.

Lemma upload_quiz_shape (env : Env) (data : QuizSubmission.t) (w : World) :
  let quiz := quiz_of data (isoformat (clock env (ticks w))) in
  let email := QuizSubmission.email data in
  exists w' a b,
    upload_quiz env data w = (Ok saved, w')
    /\ ticks w' = S (S (ticks w))
    /\ quiz_submissions w' = a ++ quiz :: b
    /\ (forall x, In x a -> ~ has_email email x)
    /\ ((b = [] /\ quiz_submissions w = a)
        \/ exists y, has_email email y /\ quiz_submissions w = a ++ y :: b).
Proof.
  intros quiz email.
  destruct (upload_quiz_spec env data w) as (w' & Hrun & Ht & _ & _ & _ & Hq).
  fold quiz in Hq.
  destruct (find_one (quiz_submissions w) (fun item => Quiz.email item =? email))
    as [y|] eqn:E.
  - destruct (find_one_split _ _ _ E) as (a & b & Hl & Hy & Ha).
    exists w', a, b. split; [exact Hrun|]. split; [exact Ht|].
    fold email in Hq. rewrite E in Hq. cbn [found] in Hq.
    rewrite Hl, (update_one_first _ _ a b y Ha Hy) in Hq.
    split; [exact Hq|]. split.
    + intros x Hx Hex. apply Ha in Hx. unfold has_email in Hex.
      rewrite Hex, String.eqb_refl in Hx. discriminate.
    + right. exists y. split; [now apply String.eqb_eq | exact Hl].
  - exists w', (quiz_submissions w), []. split; [exact Hrun|]. split; [exact Ht|].
    fold email in Hq. rewrite E in Hq. cbn [found] in Hq.
    split; [exact Hq|]. split; [|now left].
    intros x Hx Hex.
    assert (Hf : found (find_one (quiz_submissions w)
                          (fun item => Quiz.email item =? email)) = false)
      by now rewrite E.
    apply find_one_none with (x := x) in Hf; [|exact Hx]. cbn in Hf.
    unfold has_email in Hex. rewrite Hex, String.eqb_refl in Hf. discriminate.
Qed.

(** Nothing keeps the emails of the file apart: an upload under the email
    that a later bulk upload synthesizes leaves two records with that email. *)
Lemma twins_arise :
  map Quiz.email
      (quiz_submissions
         (snd (bulk_upload_quiz small_env
                 {| BulkUploadRequest.chapter := "C1"; BulkUploadRequest.school := "S";
                    BulkUploadRequest.submissions := [bulk_item_of [1]%Z] |}
                 (snd (upload_quiz small_env (upload_of "bulk_1700000000.2_1" [1]%Z)
                         empty_world)))))
  = ["bulk_1700000000.2_1"; "bulk_1700000000.2_1"].
Proof. reflexivity. Qed.

(** C5, as stated, fails: when the stored set holds two records with the
    email, two uploads for that email leave two records with it. *)
Lemma upload_twice_keeps_twins :
  let w2 := after 2 (upload_quiz small_env (upload_a [1; 1]%Z)) twin_world in
  counts (has_email "a@x.org") (quiz_submissions w2) 2
  /\ ~ counts (has_email "a@x.org") (quiz_submissions w2) 1.
Proof.
  intros w2.
  assert (H2 : counts (has_email "a@x.org") (quiz_submissions w2) 2).
  { set (l := quiz_submissions w2). vm_compute in l. subst l.
    apply counts_in; [reflexivity|]. apply counts_in; [reflexivity|]. constructor. }
  split; [exact H2|].
  intros H1. pose proof (counts_unique _ _ _ _ H1 H2). discriminate.
Qed.

(** C5, amended.  When at most one stored record has the email, two uploads
    for that email leave exactly one record with it; the record is the second
    payload, stamped with the clock reading of the second upload (a later
    reading than the one the first upload stamped), and the records of other
    emails are as they were, in their places. *)
Theorem upload_twice_replaces
    (env : Env) (w : World) (first second : QuizSubmission.t) (n : nat)
    (Hsame : QuizSubmission.email first = QuizSubmission.email second)
    (Hcount : counts (has_email (QuizSubmission.email second)) (quiz_submissions w) n)
    (Hn : (n <= 1)%nat) :
  let email := QuizSubmission.email second in
  exists (w1 w2 : World) (a b : list Quiz.t),
    upload_quiz env first w = (Ok saved, w1)
    /\ upload_quiz env second w1 = (Ok saved, w2)
    /\ ticks w1 = S (S (ticks w))
    /\ quiz_submissions w1 = a ++ quiz_of first (isoformat (clock env (ticks w))) :: b
    /\ quiz_submissions w2 = a ++ quiz_of second (isoformat (clock env (ticks w1))) :: b
    /\ (forall x, In x (a ++ b) -> ~ has_email email x)
    /\ counts (has_email email) (quiz_submissions w2) 1
    /\ (quiz_submissions w = a ++ b
        \/ exists y, has_email email y /\ quiz_submissions w = a ++ y :: b).
Proof.
  intros email.
  destruct (upload_quiz_shape env first w) as (w1 & a & b & Hrun1 & Ht1 & Hq1 & Ha & Hold).
  rewrite Hsame in Ha, Hold. fold email in Ha, Hold.
  assert (Hrest : forall x, In x (a ++ b) -> ~ has_email email x).
  { destruct Hold as [[-> _]|(y & Hy & Hl)].
    - rewrite app_nil_r. exact Ha.
    - rewrite Hl in Hcount. exact (counts_split _ _ _ _ _ Hcount Hy Hn). }
  assert (Ha' : forall x, In x a -> (Quiz.email x =? email) = false).
  { intros x Hx. destruct (String.eqb_spec (Quiz.email x) email) as [He|]; [|reflexivity].
    now destruct (Ha x Hx). }
  destruct (upload_quiz_spec env second w1) as (w2 & Hrun2 & _ & _ & _ & _ & Hq2).
  fold email in Hq2. rewrite Hq1 in Hq2.
  rewrite (find_one_first (fun item => Quiz.email item =? email) a b _ Ha') in Hq2
    by (cbn; rewrite Hsame; apply String.eqb_refl).
  cbn [found] in Hq2.
  rewrite (update_one_first (fun item => Quiz.email item =? email) _ a b _ Ha') in Hq2
    by (cbn; rewrite Hsame; apply String.eqb_refl).
  cbn [fst] in Hq2.
  exists w1, w2, a, b.
  repeat match goal with |- _ /\ _ => split end; try assumption.
  - rewrite Hq2.
    change 1%nat with (0 + 1)%nat. apply counts_app.
    + apply counts_none. intros x Hx. apply Hrest, in_or_app. now left.
    + apply counts_in; [reflexivity|].
      apply counts_none. intros x Hx. apply Hrest, in_or_app. now right.
  - destruct Hold as [[-> ->]|Hy]; [left; now rewrite app_nil_r | now right].
Qed.

(** Two uploads for [a@x.org] into the small world, which has one record
    with that email. *)
Lemma upload_twice_replaces_witness :
  QuizSubmission.email (upload_a [0]%Z) = QuizSubmission.email (upload_a [1; 1]%Z)
  /\ counts (has_email "a@x.org") (quiz_submissions small_world) 1
  /\ (1 <= 1)%nat
  /\ counts (has_email "a@x.org")
            (quiz_submissions
               (snd (upload_quiz small_env (upload_a [1; 1]%Z)
                       (snd (upload_quiz small_env (upload_a [0]%Z) small_world)))))
            1.
Proof.
  assert (Hc : counts (has_email "a@x.org") (quiz_submissions small_world) 1).
  { apply counts_in; [reflexivity|]. apply counts_out; [discriminate|]. constructor. }
  split; [reflexivity|]. split; [exact Hc|]. split; [lia|].
  destruct (upload_twice_replaces small_env small_world (upload_a [0]%Z) (upload_a [1; 1]%Z)
              1 eq_refl Hc (le_n 1))
    as (w1 & w2 & a & b & H1 & H2 & _ & _ & _ & _ & Hone & _).
  rewrite H1. cbn [snd]. rewrite H2. exact Hone.
Defined.

(** ** Updating an observation *)

Lemma truthy_falsy (v : json) : truthy v = false <-> falsy v.
Proof.
  unfold falsy. destruct v as [|b|z|m e|s|l|d]; cbn.
  - intuition.
  - destruct b; split; [discriminate | | auto |];
      intros [H|[H|[H|[(e & H)|[H|[H|H]]]]]]; congruence.
  - rewrite negb_false_iff, Z.eqb_eq. split; [intros ->; auto|].
    intros [H|[H|[H|[(e & H)|[H|[H|H]]]]]]; congruence.
  - rewrite negb_false_iff, Z.eqb_eq. split; [intros ->; eauto 6|].
    intros [H|[H|[H|[(e' & H)|[H|[H|H]]]]]]; congruence.
  - rewrite negb_false_iff, String.eqb_eq. split; [intros ->; auto 8|].
    intros [H|[H|[H|[(e & H)|[H|[H|H]]]]]]; congruence.
  - destruct l; split; try discriminate; auto 8;
      intros [H|[H|[H|[(e & H)|[H|[H|H]]]]]]; congruence.
  - destruct d; split; try discriminate; auto 8;
      intros [H|[H|[H|[(e & H)|[H|[H|H]]]]]]; congruence.
Qed.

Lemma update_observation_refused (env : Env) (w : World) (body : ObservationBody.t) :
  negb (str_truthy (ObservationBody.chapter body))
  || negb (json_truthy (ObservationBody.data body)) = true ->
  update_observation env body w = (HTTPException 400 "Missing 'chapter' or 'data'", w).
Proof. intros H. unfold update_observation. now rewrite H. Qed.

Lemma update_observation_run (env : Env) (w : World) (body : ObservationBody.t) c v :
  ObservationBody.chapter body = Some c ->
  ObservationBody.data body = Some v ->
  negb (str_truthy (ObservationBody.chapter body))
  || negb (json_truthy (ObservationBody.data body)) = false ->
  let query := fun item => Observation.chapter item =? c in
  let now := isoformat (clock env (ticks w)) in
  exists w',
    update_observation env body w = (Ok updated, w')
    /\ users w' = users w
    /\ quiz_submissions w' = quiz_submissions w
    /\ pdf_files w' = pdf_files w
    /\ chapter_observations w'
       = if found (find_one (chapter_observations w) query)
         then fst (update_one (chapter_observations w) query
                     (fun item =>
                        {| Observation.chapter := Observation.chapter item;
                           Observation.data := v;
                           Observation.updated_at := now |}))
         else chapter_observations w
              ++ [{| Observation.chapter := c; Observation.data := v;
                     Observation.updated_at := now |}].
Proof.
  intros Hc Hv Hg query now. unfold update_observation. rewrite Hg, Hc, Hv.
  cbn [str_value json_value]. unfold bind at 1, read_json_file. fold query.
  destruct (found (find_one (chapter_observations w) query));
    unfold bind, utcnow, write_json_file, log, ret;
    cbn [store users quiz_submissions pdf_files chapter_observations last_push_time
         ticks uuids events fst snd];
    match goal with
    | |- context [sync_git env ?m ?u] =>
        destruct (sync_git_spec env m u) as (w' & Hs & Hu & Hq & Hp & Ho & _);
        rewrite Hs
    end;
    exists w'; cbn in Hu, Hq, Hp, Ho; repeat split; assumption.
Qed.

(** ** Bulk upload *)

Lemma has_char_app c a b : has_char c (a ++ b) = has_char c a || has_char c b.
Proof.
  induction a as [|x a IH]; simpl; [reflexivity|]. now rewrite IH, orb_assoc.
Qed.

Lemma digits_no_underscore d : has_char "_" (NilEmpty.string_of_uint d) = false.
Proof. induction d; simpl; auto. Qed.

Lemma str_of_nat_no_underscore n : has_char "_" (str_of_nat n) = false.
Proof.
  unfold str_of_nat, NilZero.string_of_uint.
  destruct (Nat.to_uint n); try apply digits_no_underscore. reflexivity.
Qed.

(** The part after the last underscore decides. *)
Lemma last_segment_inj (a a' d d' : string) :
  has_char "_" d = false -> has_char "_" d' = false ->
  (a ++ "_" ++ d = a' ++ "_" ++ d')%string -> d = d'.
Proof.
  intros Hd Hd'. revert a'.
  induction a as [|c a IH]; intros [|c' a']; simpl; intros [= H].
  - exact H.
  - subst d. rewrite has_char_app in Hd. simpl in Hd.
    rewrite orb_true_r in Hd. discriminate.
  - subst d'. rewrite has_char_app in Hd'. simpl in Hd'.
    rewrite orb_true_r in Hd'. discriminate.
  - now apply (IH a').
Qed.

Lemma string_app_assoc (a b c : string) : ((a ++ b) ++ c = a ++ (b ++ c))%string.
Proof. induction a as [|x a IH]; simpl; [reflexivity | now rewrite IH]. Qed.

Lemma bulk_email_inj data data' item item' size size' stamp stamp' now now' :
  Quiz.email (new_submission data item size stamp now)
  = Quiz.email (new_submission data' item' size' stamp' now') ->
  size = size'.
Proof.
  cbn [Quiz.email new_submission]. intros H.
  apply str_of_nat_inj.
  apply (last_segment_inj ("bulk_" ++ timestamp stamp)%string
                          ("bulk_" ++ timestamp stamp')%string);
    try apply str_of_nat_no_underscore.
  now rewrite !string_app_assoc.
Qed.

Lemma bulk_item_run (env : Env) (data : BulkUploadRequest.t) (submissions : list Quiz.t)
    (item : BulkSubmissionItem.t) (w : World) :
  bulk_item env data submissions item w
  = (Ok (submissions
           ++ [new_submission data item (List.length submissions)
                 (clock env (ticks w)) (clock env (S (ticks w)))]),
     advance 2 w).
Proof. reflexivity. Qed.

(** The loop of [bulk_upload_quiz]: two clock readings and one record per
    item, nothing else. *)
Lemma bulk_loop (env : Env) (data : BulkUploadRequest.t) (items : list BulkSubmissionItem.t) :
  forall (submissions : list Quiz.t) (w : World),
  exists (w' : World) (new : list Quiz.t),
    for_each (bulk_item env data) items submissions w = (Ok (submissions ++ new), w')
    /\ List.length new = List.length items
    /\ (forall i item,
           nth_error items i = Some item ->
           nth_error new i
           = Some (new_submission data item (List.length submissions + i)
                     (clock env (ticks w + 2 * i))
                     (clock env (ticks w + 2 * i + 1))))
    /\ users w' = users w
    /\ quiz_submissions w' = quiz_submissions w
    /\ pdf_files w' = pdf_files w
    /\ chapter_observations w' = chapter_observations w
    /\ events w' = events w.
Proof.
  induction items as [|item items IH]; intros submissions w.
  - exists w, []. cbn. rewrite app_nil_r. repeat split; try reflexivity.
    intros [|i] item; discriminate.
  - cbn [for_each]. unfold bind at 1. rewrite bulk_item_run.
    destruct (IH (submissions
                    ++ [new_submission data item (List.length submissions)
                          (clock env (ticks w)) (clock env (S (ticks w)))])
                 (advance 2 w))
      as (w' & new & Hrun & Hlen & Hnth & Hu & Hq & Hp & Ho & He).
    rewrite Hrun. cbn in Hu, Hq, Hp, Ho, He.
    exists w', (new_submission data item (List.length submissions)
                  (clock env (ticks w)) (clock env (S (ticks w))) :: new).
    split; [now rewrite <- app_assoc|].
    split; [cbn; now rewrite Hlen|].
    split; [|repeat split; assumption].
    intros [|i] it Hit.
    + cbn in Hit. injection Hit as <-. cbn [nth_error].
      now rewrite Nat.add_0_r, Nat.mul_0_r, Nat.add_0_r, Nat.add_1_r.
    + cbn [nth_error] in *. rewrite (Hnth i it Hit). cbn [ticks advance].
      rewrite length_app. cbn [List.length].
      replace (List.length submissions + 1 + i)%nat
        with (List.length submissions + S i)%nat by lia.
      replace (2 + ticks w + 2 * i)%nat with (ticks w + 2 * S i)%nat by lia.
      reflexivity.
Qed.

(** C7.  A bulk upload of [N] items answers with the count [N] and leaves
    the submission set as it was, followed by [N] new records, so its size
    grows by exactly [N].  The record of the [i]-th item has the email
    [bulk_<timestamp>_<size>], where the timestamp is the clock's at that
    moment and the size is that of the set just before the record is
    appended, the name [Bulk Submission <size+1>], the class [Bulk], the
    chapter and school of the request and the answers of the item; the emails
    of the new records differ from one another.  No other file changes. *)
Theorem bulk_upload_appends (env : Env) (w : World) (data : BulkUploadRequest.t) :
  let items := BulkUploadRequest.submissions data in
  let N := List.length items in
  let old := quiz_submissions w in
  exists (w' : World) (new : list Quiz.t),
    bulk_upload_quiz env data w = (Ok (uploaded N), w')
    /\ quiz_submissions w' = old ++ new
    /\ List.length new = N
    /\ List.length (quiz_submissions w') = (List.length old + N)%nat
    /\ NoDup (map Quiz.email new)
    /\ (forall i item,
           nth_error items i = Some item ->
           exists s,
             nth_error new i = Some s
             /\ s = new_submission data item (List.length old + i)
                      (clock env (ticks w + 2 * i)) (clock env (ticks w + 2 * i + 1))
             /\ Quiz.email s
                = ("bulk_" ++ timestamp (clock env (ticks w + 2 * i)) ++ "_"
                   ++ str_of_nat (List.length old + i))%string
             /\ Quiz.name s
                = ("Bulk Submission " ++ str_of_nat (List.length old + i + 1))%string
             /\ Quiz.class s = "Bulk"
             /\ Quiz.chapter s = BulkUploadRequest.chapter data
             /\ Quiz.school s = BulkUploadRequest.school data
             /\ same_answers s item)
    /\ users w' = users w
    /\ pdf_files w' = pdf_files w
    /\ chapter_observations w' = chapter_observations w.
Proof.
  intros items N old.
  unfold bulk_upload_quiz, bind at 1, read_json_file. fold items old.
  unfold bind at 1.
  destruct (bulk_loop env data items old w)
    as (w1 & new & Hrun & Hlen & Hnth & Hu & Hq & Hp & Ho & He).
  rewrite Hrun. unfold bind, write_json_file, log, ret.
  cbn [store users quiz_submissions pdf_files chapter_observations last_push_time
       ticks uuids events fst snd].
  match goal with
  | |- context [sync_git env ?m ?v] =>
      destruct (sync_git_spec env m v) as (w' & Hs & Hu' & Hq' & Hp' & Ho' & _);
      rewrite Hs
  end.
  cbn in Hu', Hq', Hp', Ho'.
  exists w', new.
  split; [reflexivity|]. split; [exact Hq'|]. split; [exact Hlen|].
  split; [rewrite Hq', length_app; now rewrite Hlen|].
  split; [|split; [|repeat split; congruence]].
  - apply NoDup_nth_error. intros i j Hi Heq.
    rewrite length_map, Hlen in Hi.
    destruct (nth_error items i) as [item|] eqn:Ei;
      [|apply nth_error_None in Ei; fold N in Hi; unfold N in Hi; lia].
    rewrite !nth_error_map, (Hnth i item Ei) in Heq.
    destruct (nth_error items j) as [item'|] eqn:Ej.
    + rewrite (Hnth j item' Ej) in Heq. cbn [option_map] in Heq.
      assert (Hsize : (List.length old + i = List.length old + j)%nat).
      { eapply bulk_email_inj.
        exact (f_equal (fun o => match o with Some e => e | None => "" end) Heq). }
      lia.
    + apply nth_error_None in Ej. rewrite <- Hlen in Ej.
      apply nth_error_None in Ej. rewrite Ej in Heq. discriminate.
  - intros i item Hi. eexists. split; [exact (Hnth i item Hi)|].
    repeat split.
Qed.

(** ** Sending a PDF *)

Lemma fromhex_hex_byte (x : Byte.byte) (s : string) :
  fromhex (String (hex_digit (Byte.to_N x / 16))
             (String (hex_digit (Byte.to_N x mod 16)) s))
  = match fromhex s with Some b => Some (x :: b) | None => None end.
Proof. destruct x; reflexivity. Qed.

Lemma fromhex_hex (b : list Byte.byte) : fromhex (hex b) = Some b.
Proof.
  induction b as [|x b IH]; [reflexivity|].
  cbn [hex]. now rewrite fromhex_hex_byte, IH.
Qed.

Lemma hex_digits_lower (x : Byte.byte) :
  is_hex_lower (hex_digit (Byte.to_N x / 16)) = true
  /\ is_hex_lower (hex_digit (Byte.to_N x mod 16)) = true.
Proof. destruct x; split; reflexivity. Qed.

Lemma hex_text_safe (b : list Byte.byte) : all_chars is_hex_lower (hex b) = true.
Proof.
  induction b as [|x b IH]; [reflexivity|].
  cbn [hex all_chars]. destruct (hex_digits_lower x) as [-> ->]. exact IH.
Qed.

(** C9.  [send_pdf] first appends a record whose content is the file's
    bytes in lower-case hexadecimal, from which [bytes.fromhex] gives the
    file's bytes back; then it hands the relay one message, to the given
    address, whose attachment is exactly those bytes; and it always answers
    [{message: result}], where the result is what [send_pdf_via_gmail]
    returned, its success text or [Failed to send PDF: ] followed by the
    relay's error: a failure of the relay is not an error of the request.
    No other file changes. *)
Theorem send_pdf_answers (env : Env) (w : World) (file : UploadFile.t) (email : string) :
  let file_data := UploadFile.content file in
  let pdf_entry :=
    {| PdfEntry.filename := UploadFile.filename file;
       PdfEntry.content := hex file_data;
       PdfEntry.email := email;
       PdfEntry.uploaded_at := isoformat (clock env (ticks w)) |} in
  fromhex (hex file_data) = Some file_data
  /\ all_chars is_hex_lower (hex file_data) = true
  /\ exists (msg : Mail) (result : string) (w' : World),
      send_pdf env file email w = (Ok (JDict [("message", JStr result)]), w')
      /\ send_pdf_via_gmail env file_data email
           (snd (write_json_file PDF_FILES_FILE (pdf_files w ++ [pdf_entry])
                   (snd (utcnow env w))))
         = (Ok result, w')
      /\ mail_to msg = email
      /\ mail_attachment msg = Some ("document.pdf", file_data)
      /\ result = match smtp env (S (List.length (events w))) msg with
                  | None => "PDF sent successfully"
                  | Some e => ("Failed to send PDF: " ++ e)%string
                  end
      /\ pdf_files w' = pdf_files w ++ [pdf_entry]
      /\ events w' = events w ++ [Wrote PDF_FILES_FILE; Mailed msg]
      /\ users w' = users w
      /\ quiz_submissions w' = quiz_submissions w
      /\ chapter_observations w' = chapter_observations w.
Proof.
  intros file_data pdf_entry.
  split; [apply fromhex_hex|]. split; [apply hex_text_safe|].
  unfold send_pdf, bind, read_json_file, utcnow, write_json_file, log, ret.
  cbn [store users quiz_submissions pdf_files chapter_observations last_push_time
       ticks uuids events fst snd PdfEntry.content].
  fold file_data. rewrite (fromhex_hex file_data).
  unfold send_pdf_via_gmail, bind, send_message, log, ret.
  cbn [users quiz_submissions pdf_files chapter_observations last_push_time
       ticks uuids events].
  rewrite length_app, Nat.add_1_r. cbn [List.length].
  match goal with
  | |- context [smtp env _ ?m] => exists m
  end.
  destruct (smtp env _ _) as [e|]; eexists; eexists;
    (split; [reflexivity|]); cbn; rewrite <- ?app_assoc; repeat split.
Qed.

(** ** The handlers at work in the small world *)

Example bulk_of_two_emails :
  map (fun s => (Quiz.email s, Quiz.name s, Quiz.class s))
      (quiz_submissions (snd (bulk_upload_quiz small_env bulk_of_two small_world)))
  = [("a@x.org", "", ""); ("b@x.org", "", "");
     ("bulk_1700000000.0_2", "Bulk Submission 3", "Bulk");
     ("bulk_1700000000.2_3", "Bulk Submission 4", "Bulk")]
  /\ fst (bulk_upload_quiz small_env bulk_of_two small_world)
     = Ok (JDict [("message", JStr "Successfully uploaded 2 quiz submissions")]).
Proof. split; reflexivity. Qed.

Example three_bytes_hex :
  hex (UploadFile.content three_bytes) = "2550ff"
  /\ fromhex "25 50FF" = Some (UploadFile.content three_bytes)
  /\ fromhex "2550f" = None.
Proof. repeat split; reflexivity. Qed.

(** The relay of the small world refuses: [/send-pdf] answers all the same,
    [/send-otp] raises. *)
Example refused_pdf_and_otp :
  fst (send_pdf small_env three_bytes "a@x.org" small_world)
  = Ok (JDict [("message", JStr "Failed to send PDF: Connection refused")])
  /\ fst (send_otp small_env {| SendOTPRequest.email := "a@x.org";
                                SendOTPRequest.otp := "1234" |} small_world)
     = HTTPException 500 "Failed to send OTP: Connection refused".
Proof. split; reflexivity. Qed.

Example first_observation :
  chapter_observations
    (snd (update_observation small_env
            {| ObservationBody.chapter := Some "C1";
               ObservationBody.data := Some (JDict [("note", JStr "ok")]) |}
            small_world))
  = [{| Observation.chapter := "C1"; Observation.data := JDict [("note", JStr "ok")];
        Observation.updated_at := "2023-11-14T22:13:20.0" |}].
Proof. reflexivity. Qed.

Example all_chapters_of_small_world :
  keys (all_chapter_data (quiz_submissions small_world)
          [{| Observation.chapter := "B"; Observation.data := JInt 1;
              Observation.updated_at := "" |};
           {| Observation.chapter := "a"; Observation.data := JInt 2;
              Observation.updated_at := "" |}])
  = ["B"; "C1"; "a"].
Proof. reflexivity. Qed.

(** * Further properties of the handlers *)

(** ** The two list helpers *)

Lemma find_one_None_all {A : Type} (query : A -> bool) (l : list A) :
  find_one l query = None -> forall x, In x l -> query x = false.
Proof. unfold find_one. intros H x Hx. exact (find_none _ _ H x Hx). Qed.

Lemma update_one_no_match {A : Type} (query : A -> bool) (update : A -> A) (l : list A) :
  (forall x, In x l -> query x = false) -> update_one l query update = (l, false).
Proof.
  induction l as [|x l IH]; intros H; [reflexivity|]. cbn.
  rewrite (H x (or_introl eq_refl)), IH; [reflexivity|].
  intros y Hy. apply H. now right.
Qed.

(** X1.  [update_one] reports a match exactly when [find_one] finds one; it
    never changes the length of the list; without a match the list is as it
    was, and with one only the first matching item is rewritten, in its
    place. *)
Theorem update_one_first_match {A : Type} (l : list A) (query : A -> bool)
    (update : A -> A) :
  snd (update_one l query update) = found (find_one l query)
  /\ List.length (fst (update_one l query update)) = List.length l
  /\ (find_one l query = None -> fst (update_one l query update) = l)
  /\ (forall y, find_one l query = Some y ->
                exists a b,
                  l = a ++ y :: b
                  /\ (forall x, In x a -> query x = false)
                  /\ query y = true
                  /\ fst (update_one l query update) = a ++ update y :: b).
Proof.
  destruct (find_one l query) as [y|] eqn:E.
  - destruct (find_one_split _ _ _ E) as (a & b & -> & Hy & Ha).
    rewrite (update_one_first query update a b y Ha Hy). cbn [fst snd found].
    split; [reflexivity|]. split; [now rewrite !length_app|].
    split; [discriminate|].
    intros y' [= <-]. exists a, b. auto.
  - rewrite (update_one_no_match query update l (find_one_None_all _ _ E)).
    cbn [fst snd found]. repeat split; try reflexivity. discriminate.
Qed.

(** ** Signing in *)

(** X2.  [signin] changes nothing.  It returns the first user that has the
    email, and raises 404 exactly when no user has it; [/api/signin] is the
    same handler. *)
Theorem signin_first_user (w : World) (email : string) :
  (forall user w',
      signin email w = (Ok user, w') ->
      w' = w /\ User.email user = email
      /\ exists a b, users w = a ++ user :: b
                     /\ forall x, In x a -> User.email x <> email)
  /\ (forall status_code detail w',
         signin email w = (HTTPException status_code detail, w') ->
         status_code = 404%Z /\ detail = "User not found" /\ w' = w
         /\ forall x, In x (users w) -> User.email x <> email)
  /\ ((exists x, In x (users w) /\ User.email x = email)
      <-> exists user, signin email w = (Ok user, w))
  /\ api_signin email w = signin email w.
Proof.
  unfold api_signin, signin, bind, read_json_file, ret, raise.
  destruct (find_one (users w) (fun item => User.email item =? email)) as [u|] eqn:E.
  - destruct (find_one_split _ _ _ E) as (a & b & Hl & Hu & Ha).
    apply String.eqb_eq in Hu.
    split; [|split; [|split]]; try reflexivity.
    + intros user w' [= <- <-]. repeat split; [exact Hu|].
      exists a, b. split; [exact Hl|].
      intros x Hx Hex. apply Ha in Hx. rewrite Hex, String.eqb_refl in Hx. discriminate.
    + intros c d w' [=].
    + split; [eauto|]. intros _. exists u. split; [|exact Hu].
      rewrite Hl. apply in_or_app. right. now left.
  - pose proof (find_one_None_all _ _ E) as Hnone.
    assert (Hno : forall x, In x (users w) -> User.email x <> email).
    { intros x Hx Hex. apply Hnone in Hx. cbn in Hx.
      rewrite Hex, String.eqb_refl in Hx. discriminate. }
    split; [|split; [|split]]; try reflexivity.
    + intros user w' [=].
    + intros c d w' [= <- <- <-]. auto.
    + split; [|intros (u & [=])]. intros (x & Hx & Hex). now destruct (Hno x Hx).
Qed.

(** ** Asking for the chapter data *)


(** ** Signing up, and what follows *)

Lemma signup_ok_inv (env : Env) (w : World) (request : SignUpRequest.t)
    (user : User.t) (w' : World) :
  signup env request w = (Ok user, w') ->
  user = {| User.email := SignUpRequest.email request;
            User.user_id := uuid_source env (uuids w);
            User.chapter := SignUpRequest.chapter_name request;
            User.created_at := isoformat (clock env (ticks w)) |}
  /\ users w' = users w ++ [user]
  /\ (forall u, In u (users w) ->
                User.email u <> SignUpRequest.email request
                /\ User.chapter u <> SignUpRequest.chapter_name request)
  /\ quiz_submissions w' = quiz_submissions w
  /\ pdf_files w' = pdf_files w
  /\ chapter_observations w' = chapter_observations w.
Proof.
  unfold signup, bind at 1, read_json_file.
  destruct (found (find_one (users w)
                     (fun item => User.email item =? SignUpRequest.email request)))
    eqn:Ee; [discriminate|].
  destruct (found (find_one (users w)
                     (fun item => User.chapter item =? SignUpRequest.chapter_name request)))
    eqn:Ec; [discriminate|].
  unfold bind, uuid4, utcnow, write_json_file, log, ret.
  cbn [store users quiz_submissions pdf_files chapter_observations last_push_time
       ticks uuids events fst snd].
  match goal with
  | |- context [sync_git env ?m ?v] =>
      destruct (sync_git_spec env m v) as (v' & Hs & Hu & Hq & Hp & Ho & _);
      rewrite Hs
  end.
  cbn in Hu, Hq, Hp, Ho. intros [= <- <-].
  repeat split; try assumption.
  - apply find_one_none with (x := u) in Ee; [|assumption]. cbn in Ee.
    intros He. rewrite He, String.eqb_refl in Ee. discriminate.
  - apply find_one_none with (x := u) in Ec; [|assumption]. cbn in Ec.
    intros He. rewrite He, String.eqb_refl in Ec. discriminate.
Qed.

Lemma signup_fail_inv (env : Env) (w : World) (request : SignUpRequest.t)
    (status_code : Z) (detail : string) (w' : World) :
  signup env request w = (HTTPException status_code detail, w') -> w' = w.
Proof.
  unfold signup, bind at 1, read_json_file, raise.
  destruct (found _); [now intros [= _ _ <-]|].
  destruct (found _); [now intros [= _ _ <-]|].
  unfold bind, uuid4, utcnow, write_json_file, log, ret.
  cbn [store users quiz_submissions pdf_files chapter_observations last_push_time
       ticks uuids events fst snd].
  match goal with
  | |- context [sync_git env ?m ?v] =>
      destruct (sync_git_spec env m v) as (v' & Hs & _); rewrite Hs
  end.
  discriminate.
Qed.

(** X4.  A user who has signed up can sign in: after a successful
    [signup], [signin] with the same email returns that very user, with the
    identifier that [signup] gave. *)
Theorem signup_then_signin (env : Env) (w : World) (request : SignUpRequest.t)
    (user : User.t) (w' : World)
    (Hsignup : signup env request w = (Ok user, w')) :
  signin (SignUpRequest.email request) w' = (Ok user, w').
Proof.
  destruct (signup_ok_inv env w request user w' Hsignup) as (Huser & Hu & Hnew & _).
  unfold signin, bind, read_json_file, ret. rewrite Hu.
  rewrite (find_one_first (fun item => User.email item =? SignUpRequest.email request)
             (users w) [] user).
  - reflexivity.
  - intros x Hx. destruct (String.eqb_spec (User.email x) (SignUpRequest.email request))
      as [He|]; [|reflexivity].
    now destruct (proj1 (Hnew x Hx)).
  - rewrite Huser. cbn. apply String.eqb_refl.
Qed.

Lemma signup_then_signin_witness :
  exists user w',
    signup small_env {| SignUpRequest.email := "new@x.org";
                        SignUpRequest.chapter_name := "C9" |} small_world = (Ok user, w')
    /\ signin "new@x.org" w' = (Ok user, w').
Proof.
  destruct (signup small_env {| SignUpRequest.email := "new@x.org";
                                SignUpRequest.chapter_name := "C9" |} small_world)
    as [[user|c d] w'] eqn:E.
  - exists user, w'. split; [reflexivity|].
    exact (signup_then_signin small_env small_world
             {| SignUpRequest.email := "new@x.org"; SignUpRequest.chapter_name := "C9" |}
             user w' E).
  - vm_compute in E. discriminate E.
Defined.

(** X5.  [signup] keeps the users apart: when no two users share an email
    and no two share a chapter, the same holds after [signup], whether it
    succeeds or fails; and no user is ever removed or altered. *)
Theorem signup_keeps_users_apart (env : Env) (w : World) (request : SignUpRequest.t)
    (Hemails : NoDup (map User.email (users w)))
    (Hchapters : NoDup (map User.chapter (users w))) :
  let w' := snd (signup env request w) in
  NoDup (map User.email (users w'))
  /\ NoDup (map User.chapter (users w'))
  /\ exists added, users w' = users w ++ added /\ (List.length added <= 1)%nat.
Proof.
  intros w'. subst w'.
  destruct (signup env request w) as [[user|c d] w'] eqn:E; cbn [snd].
  - destruct (signup_ok_inv env w request user w' E) as (Huser & Hu & Hnew & _).
    rewrite Hu, !map_app. cbn [map].
    assert (Hfresh : forall (f : User.t -> string) (v : string),
               NoDup (map f (users w)) ->
               (forall u, In u (users w) -> f u <> v) ->
               NoDup (map f (users w) ++ [v])).
    { intros f v Hnd Hv. apply NoDup_app; [exact Hnd | repeat constructor; auto |].
      intros x Hx [<- |[]]. apply in_map_iff in Hx. destruct Hx as (u & Hfu & Hin).
      now apply (Hv u Hin). }
    split; [|split].
    + apply Hfresh; [exact Hemails|]. intros u Hin. rewrite Huser. cbn.
      exact (proj1 (Hnew u Hin)).
    + apply Hfresh; [exact Hchapters|]. intros u Hin. rewrite Huser. cbn.
      exact (proj2 (Hnew u Hin)).
    + exists [user]. split; [reflexivity | cbn; lia].
  - rewrite (signup_fail_inv env w request c d w' E).
    split; [exact Hemails|]. split; [exact Hchapters|].
    exists []. split; [now rewrite app_nil_r | cbn; lia].
Qed.

Lemma signup_keeps_users_apart_witness :
  NoDup (map User.email (users small_world))
  /\ NoDup (map User.chapter (users small_world))
  /\ NoDup (map User.email
              (users (snd (signup small_env
                             {| SignUpRequest.email := "new@x.org";
                                SignUpRequest.chapter_name := "C9" |} small_world)))).
Proof.
  assert (He : NoDup (map User.email (users small_world)))
    by (repeat constructor; intros []).
  assert (Hc : NoDup (map User.chapter (users small_world)))
    by (repeat constructor; intros []).
  split; [exact He|]. split; [exact Hc|].
  exact (proj1 (signup_keeps_users_apart small_env small_world
                  {| SignUpRequest.email := "new@x.org";
                     SignUpRequest.chapter_name := "C9" |} He Hc)).
Defined.



(** ** Sending a one-time code *)

(** X7.  [send_otp] hands the relay one message, addressed to the
    recipient, whose text carries the code; it answers [OTP sent
    successfully] when the relay accepts the message and raises 500, with
    [Failed to send OTP: ] and the relay's error as detail, when the relay
    refuses it.  No file changes either way. *)
Theorem send_otp_outcome (env : Env) (w : World) (otp_request : SendOTPRequest.t) :
  exists (msg : Mail) (w' : World),
    snd (send_otp env otp_request w) = w'
    /\ mail_to msg = SendOTPRequest.email otp_request
    /\ mail_attachment msg = None
    /\ (exists before after_,
           mail_body msg = (before ++ SendOTPRequest.otp otp_request ++ after_)%string)
    /\ events w' = events w ++ [Mailed msg]
    /\ users w' = users w
    /\ quiz_submissions w' = quiz_submissions w
    /\ pdf_files w' = pdf_files w
    /\ chapter_observations w' = chapter_observations w
    /\ fst (send_otp env otp_request w)
       = match smtp env (List.length (events w)) msg with
         | None => Ok (JDict [("message", JStr "OTP sent successfully")])
         | Some e => HTTPException 500 ("Failed to send OTP: " ++ e)
         end.
Proof.
  unfold send_otp, send_otp_via_gmail, bind, send_message, log, ret, raise.
  match goal with
  | |- context [smtp env _ ?m] => exists m
  end.
  eexists. split; [reflexivity|].
  assert (Hbody : exists before after_ : string,
             ("Hi," ++ nl ++ nl ++ "Your OTP is: " ++ SendOTPRequest.otp otp_request
                ++ nl ++ nl ++ "Thanks," ++ nl ++ "ChotaCop Team"
              = before ++ SendOTPRequest.otp otp_request ++ after_)%string).
  { exists ("Hi," ++ nl ++ nl ++ "Your OTP is: ")%string,
      (nl ++ nl ++ "Thanks," ++ nl ++ "ChotaCop Team")%string.
    reflexivity. }
  destruct (smtp env _ _) as [e|]; cbn [mail_to mail_attachment mail_body];
    (split; [reflexivity|]); (split; [reflexivity|]); (split; [exact Hbody|]);
    cbn; repeat split.
Qed.

(** ** The throttle of [sync_git] *)

Lemma sync_git_cases (env : Env) (commit_message : string) (w : World) :
  let now := epoch_us (clock env (ticks w)) in
  ((now - last_push_time w < 10 * 1000000)%Z
   /\ events (snd (sync_git env commit_message w)) = events w
   /\ last_push_time (snd (sync_git env commit_message w)) = last_push_time w)
  \/ ((10 * 1000000 <= now - last_push_time w)%Z
      /\ events (snd (sync_git env commit_message w)) = events w ++ [GitPush commit_message]
      /\ last_push_time (snd (sync_git env commit_message w)) = now).
Proof.
  intros now. unfold sync_git, bind, utcnow. cbn [last_push_time]. fold now.
  destruct (Z.ltb_spec (now - last_push_time w) (10 * 1000000)) as [Hlt|Hge].
  - left. split; [exact Hlt|]. split; reflexivity.
  - right. split; [exact Hge|]. split; reflexivity.
Qed.

(** X8.  After a push, [sync_git] does not push again while the clock is
    less than ten seconds (ten million microseconds) past the push: a second
    call in that time leaves the pushes as they are. *)
Theorem sync_git_once_in_ten_seconds (env : Env) (first second : string) (w : World)
    (Hpushed : events (snd (sync_git env first w)) = events w ++ [GitPush first])
    (Hsoon : (epoch_us (clock env (S (ticks w))) - epoch_us (clock env (ticks w))
              < 10 * 1000000)%Z) :
  events (snd (sync_git env second (snd (sync_git env first w))))
  = events w ++ [GitPush first].
Proof.
  destruct (sync_git_cases env first w) as [(_ & He & _)|(_ & He & Hl)].
  - rewrite He in Hpushed. exfalso.
    apply (f_equal (@List.length Event)) in Hpushed.
    rewrite length_app in Hpushed. cbn in Hpushed. lia.
  - destruct (sync_git_spec env first w) as (w1 & Hrun & _ & _ & _ & _ & Ht & _).
    rewrite Hrun in *. cbn [snd] in *.
    destruct (sync_git_cases env second w1) as [(_ & He2 & _)|(Hge & _)].
    + now rewrite He2.
    + rewrite Ht, Hl in Hge. lia.
Qed.

Lemma sync_git_once_in_ten_seconds_witness :
  events (snd (sync_git small_env "one" small_world)) = events small_world ++ [GitPush "one"]
  /\ (epoch_us (clock small_env (S (ticks small_world)))
      - epoch_us (clock small_env (ticks small_world)) < 10 * 1000000)%Z
  /\ events (snd (sync_git small_env "two" (snd (sync_git small_env "one" small_world))))
     = [GitPush "one"].
Proof.
  split; [reflexivity|]. split; [reflexivity|].
  exact (sync_git_once_in_ten_seconds small_env "one" "two" small_world eq_refl eq_refl).
Defined.

(** ** One upload *)

Lemma filter_none {A : Type} (f : A -> bool) (l : list A) :
  (forall x, In x l -> f x = false) -> filter f l = [].
Proof.
  induction l as [|x l IH]; intros H; [reflexivity|]. cbn.
  rewrite (H x (or_introl eq_refl)). apply IH. intros y Hy. apply H. now right.
Qed.

Lemma not_has_email_eqb (email : string) (l : list Quiz.t) :
  (forall x, In x l -> ~ has_email email x) ->
  forall x, In x l -> (Quiz.email x =? email) = false.
Proof.
  intros H x Hx. destruct (String.eqb_spec (Quiz.email x) email) as [He|]; [|reflexivity].
  now destruct (H x Hx).
Qed.

(** X9.  What is uploaded can be looked up: after [upload_quiz], whatever
    the file held before, [/check-mail] answers [exists: true] for the
    payload's email, and the first record that [/email-data] returns for it
    is the payload, stamped with the time of the upload. *)
Theorem upload_then_lookup (env : Env) (data : QuizSubmission.t) (w : World) :
  let email := QuizSubmission.email data in
  exists (w' : World) (others : list json),
    upload_quiz env data w = (Ok saved, w')
    /\ check_email_exists email w' = (Ok (JDict [("exists", JBool true)]), w')
    /\ get_data_by_email email w'
       = (Ok (JDict [("data",
                      JList (quiz_json (quiz_of data (isoformat (clock env (ticks w))))
                               :: others))]), w').
Proof.
  intros email.
  destruct (upload_quiz_shape env data w) as (w' & a & b & Hrun & _ & Hq & Ha & _).
  fold email in Ha.
  pose proof (not_has_email_eqb email a Ha) as Ha'.
  exists w', (map quiz_json (filter (fun s => Quiz.email s =? email) b)).
  split; [exact Hrun|].
  unfold check_email_exists, get_data_by_email, bind, read_json_file, ret. rewrite Hq.
  split.
  - rewrite (find_one_first (fun item => Quiz.email item =? email) a b _ Ha');
      [reflexivity | cbn; apply String.eqb_refl].
  - rewrite filter_app, (filter_none _ a Ha'). cbn [app filter].
    replace (Quiz.email (quiz_of data (isoformat (clock env (ticks w)))) =? email)
      with true by (symmetry; cbn; apply String.eqb_refl).
    reflexivity.
Qed.

(** X10.  [upload_quiz] touches one record at most.  The emails of the file
    stay as they are when some record has the payload's email, and gain the
    payload's email at the end otherwise; so a file without repeated emails
    stays without.  Records with another email keep their content and
    order, and no other file changes. *)
Theorem upload_keeps_emails_apart (env : Env) (data : QuizSubmission.t) (w : World) :
  let email := QuizSubmission.email data in
  let w' := snd (upload_quiz env data w) in
  ((exists s, In s (quiz_submissions w) /\ has_email email s) ->
   map Quiz.email (quiz_submissions w') = map Quiz.email (quiz_submissions w))
  /\ ((forall s, In s (quiz_submissions w) -> ~ has_email email s) ->
      quiz_submissions w'
      = quiz_submissions w ++ [quiz_of data (isoformat (clock env (ticks w)))])
  /\ (NoDup (map Quiz.email (quiz_submissions w)) ->
      NoDup (map Quiz.email (quiz_submissions w')))
  /\ filter (fun s => negb (Quiz.email s =? email)) (quiz_submissions w')
     = filter (fun s => negb (Quiz.email s =? email)) (quiz_submissions w)
  /\ users w' = users w
  /\ pdf_files w' = pdf_files w
  /\ chapter_observations w' = chapter_observations w.
Proof.
  intros email w'. subst w'.
  destruct (upload_quiz_spec env data w) as (w' & Hrun & _ & Hu & Hp & Ho & _).
  destruct (upload_quiz_shape env data w) as (w2 & a & b & Hrun2 & _ & Hq & Ha & Hold).
  rewrite Hrun in Hrun2. injection Hrun2 as <-. rewrite Hrun. cbn [snd].
  fold email in Ha, Hold.
  set (quiz := quiz_of data (isoformat (clock env (ticks w)))) in *.
  assert (Hemails : (exists y, has_email email y /\ quiz_submissions w = a ++ y :: b) ->
                    map Quiz.email (quiz_submissions w') = map Quiz.email (quiz_submissions w)).
  { intros (y & Hy & Hl). rewrite Hq, Hl, !map_app. cbn [map].
    rewrite Hy. reflexivity. }
  assert (Hothers : filter (fun s => negb (Quiz.email s =? email)) (quiz_submissions w')
                    = filter (fun s => negb (Quiz.email s =? email)) (quiz_submissions w)).
  { rewrite Hq. destruct Hold as [[-> ->]|(y & Hy & ->)]; rewrite !filter_app; cbn [filter].
    - replace (Quiz.email quiz =? email) with true
        by (symmetry; cbn; apply String.eqb_refl).
      cbn [negb]. now rewrite app_nil_r.
    - replace (Quiz.email quiz =? email) with true
        by (symmetry; cbn; apply String.eqb_refl).
      replace (Quiz.email y =? email) with true
        by (symmetry; now apply String.eqb_eq).
      reflexivity. }
  repeat match goal with |- _ /\ _ => split end; try assumption.
  - intros (s & Hin & Hs). destruct Hold as [[-> Hl]|Hy]; [|now apply Hemails].
    rewrite Hl in Hin. now destruct (Ha s Hin).
  - intros Hnone. destruct Hold as [[-> Hl]|(y & Hy & Hl)]; [now rewrite Hq, Hl|].
    exfalso. apply (Hnone y); [|exact Hy]. rewrite Hl. apply in_or_app. right. now left.
  - intros Hnd. destruct Hold as [[-> Hl]|Hy]; [|now rewrite Hemails].
    rewrite Hq, map_app. cbn [map]. rewrite <- Hl in *.
    apply NoDup_app; [exact Hnd | repeat constructor; auto |].
    intros x Hx [<- |[]]. apply in_map_iff in Hx. destruct Hx as (s & Hs & Hin).
    now apply (Ha s Hin).
Qed.

(** ** Bulk upload and the chapter data *)

Lemma bulk_upload_run (env : Env) (w : World) (data : BulkUploadRequest.t) :
  exists (w' : World) (new : list Quiz.t),
    bulk_upload_quiz env data w
    = (Ok (uploaded (List.length (BulkUploadRequest.submissions data))), w')
    /\ quiz_submissions w' = quiz_submissions w ++ new
    /\ List.length new = List.length (BulkUploadRequest.submissions data)
    /\ (forall s, In s new -> Quiz.chapter s = BulkUploadRequest.chapter data)
    /\ users w' = users w
    /\ pdf_files w' = pdf_files w
    /\ chapter_observations w' = chapter_observations w.
Proof.
  unfold bulk_upload_quiz, bind at 1, read_json_file. unfold bind at 1.
  destruct (bulk_loop env data (BulkUploadRequest.submissions data) (quiz_submissions w) w)
    as (w1 & new & Hrun & Hlen & Hnth & Hu & Hq & Hp & Ho & He).
  rewrite Hrun. unfold bind, write_json_file, log, ret.
  cbn [store users quiz_submissions pdf_files chapter_observations last_push_time
       ticks uuids events fst snd].
  match goal with
  | |- context [sync_git env ?m ?v] =>
      destruct (sync_git_spec env m v) as (w' & Hs & Hu' & Hq' & Hp' & Ho' & _);
      rewrite Hs
  end.
  cbn in Hu', Hq', Hp', Ho'.
  exists w', new. split; [reflexivity|]. split; [exact Hq'|]. split; [exact Hlen|].
  split; [|repeat split; congruence].
  intros s Hs'. apply In_nth_error in Hs'. destruct Hs' as (i & Hi).
  destruct (nth_error (BulkUploadRequest.submissions data) i) as [item|] eqn:Ei.
  - rewrite (Hnth i item Ei) in Hi. now injection Hi as <-.
  - apply nth_error_None in Ei. rewrite <- Hlen in Ei. apply nth_error_None in Ei.
    congruence.
Qed.

Lemma total_submissions_path (chapter : string) (submissions : list Quiz.t)
    (observations : list Observation.t) :
  at_path (chapter_data chapter submissions observations) ["total_submissions"]
  = Some (JInt (Z.of_nat (List.length (chapter_submissions_of submissions chapter)))).
Proof.
  unfold chapter_data.
  destruct (chapter_submissions_of submissions chapter) as [|s l];
    destruct (found (chapter_observation_of observations chapter)); reflexivity.
Qed.

(** X11.  A bulk upload shows in the chapter data of its chapter and of no
    other: the [total_submissions] of the request's chapter grows by the
    number of items, and the single-chapter data of every other chapter is
    what it was. *)
Theorem bulk_upload_counts (env : Env) (w : World) (data : BulkUploadRequest.t) :
  let w' := snd (bulk_upload_quiz env data w) in
  let chapter := BulkUploadRequest.chapter data in
  let N := List.length (BulkUploadRequest.submissions data) in
  (exists before : nat,
      at_path (chapter_data chapter (quiz_submissions w) (chapter_observations w))
              ["total_submissions"] = Some (JInt (Z.of_nat before))
      /\ at_path (chapter_data chapter (quiz_submissions w') (chapter_observations w'))
                 ["total_submissions"] = Some (JInt (Z.of_nat (before + N))))
  /\ forall other,
      other <> chapter ->
      chapter_data other (quiz_submissions w') (chapter_observations w')
      = chapter_data other (quiz_submissions w) (chapter_observations w).
Proof.
  intros w' chapter N. subst w'.
  destruct (bulk_upload_run env w data) as (w' & new & Hrun & Hq & Hlen & Hch & _ & _ & Ho).
  rewrite Hrun. cbn [snd]. fold chapter in Hch. fold N in Hlen.
  split.
  - exists (List.length (chapter_submissions_of (quiz_submissions w) chapter)).
    rewrite !total_submissions_path. split; [reflexivity|].
    rewrite Hq. unfold chapter_submissions_of. rewrite filter_app, length_app.
    replace (filter (fun s => Quiz.chapter s =? chapter) new) with new; [now rewrite Hlen|].
    symmetry. apply forallb_filter_id. apply forallb_forall.
    intros s Hs. apply String.eqb_eq. now apply Hch.
  - intros other Hother. unfold chapter_data. rewrite Ho, Hq.
    unfold chapter_submissions_of. rewrite filter_app.
    rewrite (filter_none (fun s => Quiz.chapter s =? other) new), app_nil_r; [reflexivity|].
    intros s Hs. rewrite (Hch s Hs). destruct (String.eqb_spec chapter other); congruence.
Qed.

(** ** Observations and the chapter data *)

Lemma find_one_app {A : Type} (query : A -> bool) (a b : list A) :
  find_one (a ++ b) query
  = match find_one a query with Some x => Some x | None => find_one b query end.
Proof.
  unfold find_one. induction a as [|x a IH]; [reflexivity|]. cbn.
  destruct (query x); [reflexivity | exact IH].
Qed.

Lemma update_observation_ok_inv (env : Env) (w : World) (body : ObservationBody.t)
    (answer : json) (w' : World) :
  update_observation env body w = (Ok answer, w') ->
  exists (c : string) (v : json),
    ObservationBody.chapter body = Some c /\ ObservationBody.data body = Some v
    /\ quiz_submissions w' = quiz_submissions w
    /\ ((exists a o b,
            chapter_observations w = a ++ o :: b
            /\ Observation.chapter o = c
            /\ (forall x, In x a -> (Observation.chapter x =? c) = false)
            /\ chapter_observations w'
               = a ++ {| Observation.chapter := c; Observation.data := v;
                         Observation.updated_at := isoformat (clock env (ticks w)) |} :: b)
        \/ ((forall x, In x (chapter_observations w) -> (Observation.chapter x =? c) = false)
            /\ chapter_observations w'
               = chapter_observations w
                 ++ [{| Observation.chapter := c; Observation.data := v;
                        Observation.updated_at := isoformat (clock env (ticks w)) |}])).
Proof.
  intros Hrun.
  destruct (negb (str_truthy (ObservationBody.chapter body))
            || negb (json_truthy (ObservationBody.data body))) eqn:Eg.
  { rewrite (update_observation_refused env w body Eg) in Hrun. discriminate. }
  destruct (ObservationBody.chapter body) as [c|] eqn:Ec; [|discriminate].
  destruct (ObservationBody.data body) as [v|] eqn:Ed;
    [|cbn in Eg; rewrite orb_true_r in Eg; discriminate].
  destruct (update_observation_run env w body c v Ec Ed) as (w2 & Hrun2 & _ & Hq & _ & Ho).
  { now rewrite Ec, Ed. }
  rewrite Hrun2 in Hrun. injection Hrun as _ <-.
  exists c, v. split; [reflexivity|]. split; [reflexivity|]. split; [exact Hq|].
  destruct (find_one (chapter_observations w) (fun item => Observation.chapter item =? c))
    as [o|] eqn:Ef; cbn [found] in Ho.
  - left. destruct (find_one_split _ _ _ Ef) as (a & b & Hl & Hy & Ha).
    exists a, o, b. apply String.eqb_eq in Hy.
    rewrite Hl in Ho at 1.
    rewrite (update_one_first _ _ a b o Ha) in Ho by now apply String.eqb_eq.
    cbn [fst] in Ho. rewrite Hy in Ho. auto.
  - right. split; [exact (find_one_None_all _ _ Ef) | exact Ho].
Qed.

(** X12.  An observation that was accepted is the one the chapter data
    shows: after a successful [update_observation] for a chapter, the
    single-chapter data of that chapter carries the new data as its
    [observation]; the data of every other chapter, and every submission,
    is what it was. *)
Theorem update_observation_then_chapter_data
    (env : Env) (w : World) (body : ObservationBody.t) (answer : json) (w' : World)
    (Hok : update_observation env body w = (Ok answer, w')) :
  exists (c : string) (v : json),
    ObservationBody.chapter body = Some c /\ ObservationBody.data body = Some v
    /\ at_path (chapter_data c (quiz_submissions w') (chapter_observations w'))
               ["observation"] = Some v
    /\ forall other,
        other <> c ->
        chapter_data other (quiz_submissions w') (chapter_observations w')
        = chapter_data other (quiz_submissions w) (chapter_observations w).
Proof.
  destruct (update_observation_ok_inv env w body answer w' Hok)
    as (c & v & Hc & Hv & Hq & Hobs).
  exists c, v. split; [exact Hc|]. split; [exact Hv|].
  set (new := {| Observation.chapter := c; Observation.data := v;
                 Observation.updated_at := isoformat (clock env (ticks w)) |}) in *.
  assert (Hshape : exists a b o,
             chapter_observations w' = a ++ new :: b
             /\ (forall x, In x a -> (Observation.chapter x =? c) = false)
             /\ (chapter_observations w = a ++ o ++ b)
             /\ (forall x, In x o -> Observation.chapter x = c)).
  { destruct Hobs as [(a & o & b & Hl & Ho & Ha & Hl')|[Hnone Hl']].
    - exists a, b, [o]. repeat split; try assumption. intros x [<- |[]]. exact Ho.
    - exists (chapter_observations w), [], []. rewrite app_nil_r.
      repeat split; try assumption. intros x []. }
  destruct Hshape as (a & b & o & Hl' & Ha & Hl & Ho).
  split.
  - unfold chapter_data, chapter_observation_of. rewrite Hl'.
    rewrite (find_one_first (fun item => Observation.chapter item =? c) a b new Ha)
      by (cbn; apply String.eqb_refl).
    cbn [found negb andb]. rewrite andb_false_r. reflexivity.
  - intros other Hother. unfold chapter_data, chapter_observation_of.
    rewrite Hq, Hl', Hl, !find_one_app.
    assert (Hskip : forall l, (forall x, In x l -> Observation.chapter x = c) ->
                              find_one l (fun o => Observation.chapter o =? other) = None).
    { intros l Hall. unfold find_one.
      destruct (find _ l) as [x|] eqn:E; [|reflexivity].
      apply find_some in E. destruct E as [Hin He]. apply String.eqb_eq in He.
      rewrite (Hall x Hin) in He. congruence. }
    rewrite (Hskip o Ho).
    change (new :: b) with ([new] ++ b). rewrite find_one_app.
    rewrite (Hskip [new]); [reflexivity|]. intros x [<- |[]]. reflexivity.
Qed.

Lemma update_observation_then_chapter_data_witness :
  exists answer w',
    update_observation small_env note_for_C1 small_world = (Ok answer, w')
    /\ at_path (chapter_data "C1" (quiz_submissions w') (chapter_observations w'))
               ["observation"] = Some (JDict [("note", JStr "ok")]).
Proof.
  destruct (update_observation small_env note_for_C1 small_world) as [[answer|c d] w'] eqn:E.
  - exists answer, w'. split; [reflexivity|].
    destruct (update_observation_then_chapter_data small_env small_world note_for_C1
                answer w' E) as (c & v & Hc & Hv & Hpath & _).
    cbn in Hc, Hv. injection Hc as <-. injection Hv as <-. exact Hpath.
  - vm_compute in E. discriminate E.
Defined.


(** ** The all-chapters response as a whole *)

Lemma filter_split_length {A : Type} (f g : A -> bool) (l : list A) :
  (forall x, In x l -> f x = true -> g x = false) ->
  (List.length (filter f l) + List.length (filter g l)
   = List.length (filter (fun x => f x || g x) l))%nat.
Proof.
  induction l as [|x l IH]; intros H; [reflexivity|]. cbn.
  assert (IH' := IH (fun y Hy => H y (or_intror Hy))).
  destruct (f x) eqn:Ef; cbn.
  - rewrite (H x (or_introl eq_refl) Ef). cbn. lia.
  - destruct (g x); cbn; lia.
Qed.

Lemma sum_totals_chapters (submissions : list Quiz.t) (val : string -> json)
    (l : list string) :
  (forall c, total_submissions_of (val c)
             = Z.of_nat (List.length (chapter_submissions_of submissions c))) ->
  NoDup l ->
  sum_totals (map (fun c => (c, val c)) l)
  = Z.of_nat (List.length
                (filter (fun s => existsb (String.eqb (Quiz.chapter s)) l) submissions)).
Proof.
  intros Hval Hnd. induction Hnd as [|c l Hc _ IH]; cbn [map sum_totals existsb].
  - rewrite (filter_none (fun _ => false)); [reflexivity | auto].
  - rewrite IH, Hval, <- Nat2Z.inj_add. f_equal.
    unfold chapter_submissions_of.
    rewrite (filter_split_length (fun s => Quiz.chapter s =? c)
               (fun s => existsb (String.eqb (Quiz.chapter s)) l)).
    + reflexivity.
    + intros s _ Hs. apply String.eqb_eq in Hs.
      destruct (existsb _ l) eqn:E; [|reflexivity].
      apply existsb_exists in E. destruct E as (c' & Hin & He).
      apply String.eqb_eq in He. congruence.
Qed.

(** X14.  The all-chapters response counts every submission once: the
    [total_submissions] of its chapters add up to the number of submissions
    in the file. *)
Theorem all_chapters_totals_add_up (submissions : list Quiz.t)
    (observations : list Observation.t) :
  sum_totals (all_chapter_data submissions observations)
  = Z.of_nat (List.length submissions).
Proof.
  rewrite all_chapter_data_table.
  match goal with
  | |- sum_totals (map (fun c => (c, @?val c)) _) = _ =>
      rewrite (sum_totals_chapters submissions val)
  end.
  - f_equal. f_equal. apply forallb_filter_id. apply forallb_forall.
    intros s Hs. apply existsb_exists. exists (Quiz.chapter s).
    split; [|apply String.eqb_refl].
    apply chapters_of_In. left. exists s. split; [exact Hs | reflexivity].
  - reflexivity.
  - apply chapters_of_NoDup.
Qed.

(** X15.  The all-chapters branch tallies like the single-chapter one: for
    a chapter of the mapping, every question in 1..13 and every ride in 0..6,
    the entry holds the numbers of the chapter's submissions with 1 and with
    0 at that position and their sum, which does not exceed the chapter's
    [total_submissions], the number of its submissions. *)
Theorem all_chapters_counts
    (submissions : list Quiz.t) (observations : list Observation.t)
    (c : string) (q r : nat)
    (Hc : In c (keys (all_chapter_data submissions observations)))
    (Hq : (1 <= q <= 13)%nat) (Hr : (r <= 6)%nat) :
  exists ones zeros n : nat,
    counts (fun s => in_chapter c s /\ has_at q r 1 s) submissions ones
    /\ counts (fun s => in_chapter c s /\ has_at q r 0 s) submissions zeros
    /\ counts (in_chapter c) submissions n
    /\ at_path (JDict (all_chapter_data submissions observations))
               [c; "question_stats"; q_key q; "rides"; ride_key r]
       = Some (ride_json (Z.of_nat ones) (Z.of_nat zeros) (Z.of_nat (ones + zeros)))
    /\ at_path (JDict (all_chapter_data submissions observations))
               [c; "question_stats"; q_key q; "total_submissions"]
       = Some (JInt (Z.of_nat n))
    /\ at_path (JDict (all_chapter_data submissions observations)) [c; "total_submissions"]
       = Some (JInt (Z.of_nat n))
    /\ (ones + zeros <= n)%nat.
Proof.
  set (subs := chapter_submissions_of submissions c).
  exists (count_if (answered q r 1) subs), (count_if (answered q r 0) subs),
    (List.length subs).
  rewrite all_chapter_data_keys in Hc.
  assert (Hget : dict_get (all_chapter_data submissions observations) c
                 = Some (JDict [("total_submissions", JInt (Z.of_nat (List.length subs)));
                                ("question_stats", JDict (stats subs));
                                ("observation",
                                 observation_data (chapter_observation_of observations c))])).
  { rewrite all_chapter_data_table.
    match goal with
    | |- dict_get (map (fun c => (c, @?v c)) _) _ = _ =>
        rewrite (dict_get_map_key (fun c => c) v); [reflexivity | exact Hc | auto]
    end. }
  split; [apply counts_filter; [apply in_chapter_eqb | intros; apply answered_has_at]|].
  split; [apply counts_filter; [apply in_chapter_eqb | intros; apply answered_has_at]|].
  split; [apply counts_length_filter; apply in_chapter_eqb|].
  split; [|split; [|split]].
  - cbn [at_path member]. rewrite Hget.
    change (at_path (JDict (stats subs)) [q_key q; "rides"; ride_key r]
            = Some (ride_json (Z.of_nat (count_if (answered q r 1) subs))
                              (Z.of_nat (count_if (answered q r 0) subs))
                              (Z.of_nat (count_if (answered q r 1) subs
                                         + count_if (answered q r 0) subs)))).
    rewrite stats_lookup by assumption.
    unfold ride_entry, ride_json. now rewrite Nat2Z.inj_add.
  - cbn [at_path member]. rewrite Hget.
    change (at_path (JDict (stats subs)) [q_key q; "total_submissions"]
            = Some (JInt (Z.of_nat (List.length subs)))).
    rewrite stats_table. cbn [at_path member].
    rewrite (dict_get_map_key q_key (question_stats subs)); [reflexivity| |].
    + apply in_seq. lia.
    + intros y _ Hy. now apply q_key_inj.
  - cbn [at_path member]. rewrite Hget. reflexivity.
  - exact (proj1 (count_if_disjoint (answered q r 1) (answered q r 0) subs
                    (answered_disjoint q r))).
Qed.

Lemma all_chapters_counts_witness :
  In "C1" (keys (all_chapter_data (quiz_submissions small_world) []))
  /\ (1 <= 1 <= 13)%nat /\ (0 <= 6)%nat
  /\ exists ones zeros n : nat,
      at_path (JDict (all_chapter_data (quiz_submissions small_world) []))
              ["C1"; "question_stats"; "q1"; "rides"; "ride_0"]
      = Some (ride_json (Z.of_nat ones) (Z.of_nat zeros) (Z.of_nat (ones + zeros)))
      /\ (ones + zeros <= n)%nat.
Proof.
  assert (Hin : In "C1" (keys (all_chapter_data (quiz_submissions small_world) [])))
    by (left; reflexivity).
  split; [exact Hin|]. split; [lia|]. split; [lia|].
  destruct (all_chapters_counts (quiz_submissions small_world) [] "C1" 1 0 Hin
              ltac:(lia) ltac:(lia))
    as (ones & zeros & n & _ & _ & _ & Hpath & _ & _ & Hle).
  exists ones, zeros, n. split; [exact Hpath | exact Hle].
Defined.

(** ** The order of the stored submissions *)

Lemma count_if_perm {A : Type} (f : A -> bool) (l l' : list A) :
  Permutation l l' -> count_if f l = count_if f l'.
Proof.
  unfold count_if. induction 1 as [|x l l' _ IH|x y l|l1 l2 l3 _ IH1 _ IH2]; cbn.
  - reflexivity.
  - destruct (f x); cbn; now rewrite IH.
  - destruct (f x), (f y); reflexivity.
  - now rewrite IH1.
Qed.

Lemma filter_perm {A : Type} (f : A -> bool) (l l' : list A) :
  Permutation l l' -> Permutation (filter f l) (filter f l').
Proof.
  induction 1 as [|x l l' _ IH|x y l|l1 l2 l3 _ IH1 _ IH2]; cbn.
  - constructor.
  - destruct (f x); [now constructor | exact IH].
  - destruct (f x), (f y); try reflexivity. apply perm_swap.
  - now transitivity (filter f l2).
Qed.

Lemma stats_perm (l l' : list Quiz.t) : Permutation l l' -> stats l = stats l'.
Proof.
  intros H. rewrite !stats_table. apply map_ext. intros q.
  rewrite !rides_table, (Permutation_length H).
  assert (Hrides : map (fun r => (ride_key r, ride_entry l q r)) (seq 0 7)
                   = map (fun r => (ride_key r, ride_entry l' q r)) (seq 0 7)).
  { apply map_ext. intros r. unfold ride_entry.
    now rewrite !(count_if_perm _ l l' H). }
  now rewrite Hrides.
Qed.

Lemma sorted_same_elements (l1 l2 : list string) :
  StronglySorted str_lt l1 -> StronglySorted str_lt l2 ->
  (forall x, In x l1 <-> In x l2) -> l1 = l2.
Proof.
  intros H1. revert l2. induction H1 as [|x l1 Hs1 IH Hx]; intros l2 H2 Hsame.
  - destruct l2 as [|y l2]; [reflexivity|].
    now destruct (proj2 (Hsame y) (or_introl eq_refl)).
  - destruct H2 as [|y l2 Hs2 Hy].
    + now destruct (proj1 (Hsame x) (or_introl eq_refl)).
    + rewrite Forall_forall in Hx, Hy.
      assert (Hxy : x = y).
      { destruct (proj1 (Hsame x) (or_introl eq_refl)) as [Heq|Hin]; [now symmetry|].
        destruct (proj2 (Hsame y) (or_introl eq_refl)) as [Heq|Hin']; [exact Heq|].
        destruct (str_lt_irrefl x).
        apply (str_lt_trans x y x); [now apply Hx | now apply Hy]. }
      subst y. f_equal. apply IH; [exact Hs2|].
      intros z. split; intros Hz.
      * destruct (proj1 (Hsame z) (or_intror Hz)) as [<- |Hin]; [|exact Hin].
        destruct (str_lt_irrefl x). now apply Hx.
      * destruct (proj2 (Hsame z) (or_intror Hz)) as [<- |Hin]; [|exact Hin].
        destruct (str_lt_irrefl x). now apply Hy.
Qed.

(** X16.  The chapter data does not depend on the order in which the
    submissions are stored: for the same submissions in another order, the
    single-chapter data of every chapter and the all-chapters mapping are the
    same. *)
Theorem chapter_data_order_independent
    (submissions submissions' : list Quiz.t) (observations : list Observation.t)
    (Hperm : Permutation submissions submissions') :
  (forall chapter,
      chapter_data chapter submissions observations
      = chapter_data chapter submissions' observations)
  /\ all_chapter_data submissions observations
     = all_chapter_data submissions' observations.
Proof.
  assert (Hsubs : forall c, Permutation (chapter_submissions_of submissions c)
                                        (chapter_submissions_of submissions' c)).
  { intros c. now apply filter_perm. }
  split.
  - intros chapter. unfold chapter_data.
    rewrite (stats_perm _ _ (Hsubs chapter)), (Permutation_length (Hsubs chapter)).
    replace (nonempty (chapter_submissions_of submissions' chapter))
      with (nonempty (chapter_submissions_of submissions chapter)); [reflexivity|].
    pose proof (Permutation_length (Hsubs chapter)) as Hlen.
    destruct (chapter_submissions_of submissions chapter),
      (chapter_submissions_of submissions' chapter); try reflexivity; discriminate.
  - rewrite !all_chapter_data_table.
    replace (chapters_of submissions' observations)
      with (chapters_of submissions observations).
    + apply map_ext. intros c.
      now rewrite (stats_perm _ _ (Hsubs c)), (Permutation_length (Hsubs c)).
    + apply sorted_same_elements; try apply chapters_of_sorted.
      intros c. rewrite !chapters_of_In. unfold has_data.
      split; (intros [(s & Hin & Hs)|Ho]; [left; exists s; split; [|exact Hs] | now right]).
      * now apply (Permutation_in _ Hperm).
      * now apply (Permutation_in _ (Permutation_sym Hperm)).
Qed.

Lemma chapter_data_order_independent_witness :
  Permutation [submission_C1 "a@x.org" [1; 0; 1]; submission_C1 "b@x.org" [1; 1]]%Z
              [submission_C1 "b@x.org" [1; 1]; submission_C1 "a@x.org" [1; 0; 1]]%Z
  /\ chapter_data "C1"
       [submission_C1 "a@x.org" [1; 0; 1]; submission_C1 "b@x.org" [1; 1]]%Z []
     = chapter_data "C1"
         [submission_C1 "b@x.org" [1; 1]; submission_C1 "a@x.org" [1; 0; 1]]%Z [].
Proof.
  split; [apply perm_swap|].
  exact (proj1 (chapter_data_order_independent _ _ [] (perm_swap _ _ [])) "C1").
Defined.

(** ** A chapter that has an observation only *)



(** ** An upload that changes the chapter *)

Lemma length_filter_middle {A : Type} (f : A -> bool) (a b : list A) (x : A) :
  List.length (filter f (a ++ x :: b))
  = (List.length (filter f (a ++ b)) + (if f x then 1 else 0))%nat.
Proof.
  rewrite !filter_app, !length_app. cbn [filter]. destruct (f x); cbn; lia.
Qed.

(** X18.  An upload overwrites the chapter too: when the file has a record
    with the payload's email, the first such record leaves its chapter and
    joins the payload's, so for every chapter the number of its submissions
    changes by those two moves and by nothing else. *)
Theorem upload_moves_submission
    (env : Env) (data : QuizSubmission.t) (w : World) (old : Quiz.t)
    (Hold : find_one (quiz_submissions w)
              (fun item => Quiz.email item =? QuizSubmission.email data) = Some old) :
  let w' := snd (upload_quiz env data w) in
  forall chapter,
    (List.length (chapter_submissions_of (quiz_submissions w') chapter)
     + (if (Quiz.chapter old =? chapter)%string then 1 else 0)
     = List.length (chapter_submissions_of (quiz_submissions w) chapter)
       + (if (QuizSubmission.chapter data =? chapter)%string then 1 else 0))%nat.
Proof.
  intros w' chapter. subst w'.
  destruct (upload_quiz_spec env data w) as (w' & Hrun & _ & _ & _ & _ & Hq).
  rewrite Hrun. cbn [snd]. rewrite Hold in Hq. cbn [found] in Hq.
  destruct (find_one_split _ _ _ Hold) as (a & b & Hl & Hy & Ha).
  rewrite Hl in Hq. rewrite (update_one_first _ _ a b old Ha Hy) in Hq. cbn [fst] in Hq.
  rewrite Hq, Hl. unfold chapter_submissions_of.
  rewrite !length_filter_middle. cbn [Quiz.chapter quiz_of]. lia.
Qed.

Lemma upload_moves_submission_witness :
  find_one (quiz_submissions small_world)
    (fun item => Quiz.email item =? QuizSubmission.email (upload_a [1]%Z))
  = Some (submission_C1 "a@x.org" [1; 0; 1]%Z)
  /\ (List.length (chapter_submissions_of
                     (quiz_submissions (snd (upload_quiz small_env (upload_a [1]%Z)
                                               small_world))) "C1") + 1
      = List.length (chapter_submissions_of (quiz_submissions small_world) "C1") + 1)%nat.
Proof.
  split; [reflexivity|].
  exact (upload_moves_submission small_env (upload_a [1]%Z) small_world
           (submission_C1 "a@x.org" [1; 0; 1]%Z) eq_refl "C1").
Defined.

(** ** One write, one sync *)

Lemma sync_git_events (env : Env) (commit_message : string) (w : World) (f : Event) :
  exists pushes,
    events (snd (sync_git env commit_message
                   {| users := users w; quiz_submissions := quiz_submissions w;
                      pdf_files := pdf_files w;
                      chapter_observations := chapter_observations w;
                      last_push_time := last_push_time w; ticks := ticks w;
                      uuids := uuids w; events := events w ++ [f] |}))
    = events w ++ f :: pushes
    /\ (pushes = [] \/ pushes = [GitPush commit_message]).
Proof.
  match goal with
  | |- context [sync_git env ?m ?v] =>
      destruct (sync_git_cases env m v) as [(_ & He & _)|(_ & He & _)]
  end; rewrite He; cbn [events].
  - exists []. split; [reflexivity | now left].
  - exists [GitPush commit_message]. split; [now rewrite <- app_assoc | now right].
Qed.

(** X19.  [upload_quiz] and [bulk_upload_quiz] write the submissions file
    once and then call [sync_git] once: whatever the payload (a bulk request
    without items included), what they leave behind is one write of that file
    followed by at most one push, and nothing goes to the relay. *)
Theorem one_write_one_sync (env : Env) (w : World) :
  (forall data : QuizSubmission.t,
      exists pushes,
        events (snd (upload_quiz env data w))
        = events w ++ Wrote QUIZ_SUBMISSIONS_FILE :: pushes
        /\ (pushes = [] \/ pushes = [GitPush "Auto sync from /upload"]))
  /\ (forall data : BulkUploadRequest.t,
         exists pushes,
           events (snd (bulk_upload_quiz env data w))
           = events w ++ Wrote QUIZ_SUBMISSIONS_FILE :: pushes
           /\ (pushes = [] \/ pushes = [GitPush "Auto sync from /bulk-upload"])).
Proof.
  split.
  - intros data. unfold upload_quiz, bind, utcnow, read_json_file, write_json_file, log, ret.
    cbn [store users quiz_submissions pdf_files chapter_observations last_push_time
         ticks uuids events fst snd].
    match goal with
    | |- context [sync_git env ?m ?v] =>
        destruct (sync_git_events env m
                    {| users := users v; quiz_submissions := quiz_submissions v;
                       pdf_files := pdf_files v;
                       chapter_observations := chapter_observations v;
                       last_push_time := last_push_time v; ticks := ticks v;
                       uuids := uuids v; events := events w |}
                    (Wrote QUIZ_SUBMISSIONS_FILE))
          as (pushes & He & Hp);
        cbn [users quiz_submissions pdf_files chapter_observations last_push_time
             ticks uuids events] in He;
        destruct (sync_git env m v) as [[[]|c d] w'] eqn:Es
    end; cbn [snd] in *; exists pushes; auto.
  - intros data. unfold bulk_upload_quiz, bind at 1, read_json_file. unfold bind at 1.
    destruct (bulk_loop env data (BulkUploadRequest.submissions data) (quiz_submissions w) w)
      as (w1 & new & Hrun & _ & _ & _ & _ & _ & _ & He1).
    rewrite Hrun. unfold bind, write_json_file, log, ret.
    cbn [store users quiz_submissions pdf_files chapter_observations last_push_time
         ticks uuids events fst snd].
    match goal with
    | |- context [sync_git env ?m ?v] =>
        destruct (sync_git_events env m
                    {| users := users v; quiz_submissions := quiz_submissions v;
                       pdf_files := pdf_files v;
                       chapter_observations := chapter_observations v;
                       last_push_time := last_push_time v; ticks := ticks v;
                       uuids := uuids v; events := events w1 |}
                    (Wrote QUIZ_SUBMISSIONS_FILE))
          as (pushes & He & Hp);
        cbn [users quiz_submissions pdf_files chapter_observations last_push_time
             ticks uuids events] in He;
        destruct (sync_git env m v) as [[[]|c d] w'] eqn:Es
    end; cbn [snd] in *; exists pushes; rewrite <- He1; auto.
Qed.

(** * [/update-observation] on the body as posted *)

Lemma missing_guard (body : dict json) (k : string) :
  negb (truthy (body_get body k)) = true <-> missing (dict_get body k).
Proof.
  unfold body_get, missing. rewrite negb_true_iff.
  destruct (dict_get body k) as [v|].
  - rewrite truthy_falsy. split.
    + intros Hv. right. eauto.
    + intros [H|(v' & [= <-] & Hv)]; [discriminate | exact Hv].
  - split; [now left | reflexivity].
Qed.

(** Against a chapter name, Python's [==] is equality of the name. *)
Lemma py_eq_name (x : json) (c : string) :
  py_eq x (JStr c) = match x with JStr s => s =? c | _ => false end.
Proof. destruct x as [|b|z|m e|s|l|d]; reflexivity. Qed.

Lemma update_observation_raw_run (env : Env) (body : dict json) (rw : RawWorld) :
  negb (truthy (body_get body "chapter")) || negb (truthy (body_get body "data")) = false ->
  let chapter := body_get body "chapter" in
  let data := body_get body "data" in
  let query := fun item => py_eq (Stored.chapter item) chapter in
  let now := isoformat (clock env (ticks (typed_world rw))) in
  let file :=
    if found (find_one (observation_file rw) query)
    then fst (update_one (observation_file rw) query
                (fun item => {| Stored.chapter := Stored.chapter item;
                                Stored.data := data;
                                Stored.updated_at := now |}))
    else observation_file rw
         ++ [{| Stored.chapter := chapter; Stored.data := data;
                Stored.updated_at := now |}] in
  exists w',
    update_observation_raw env (JDict body) rw
    = (Ok updated, {| observation_file := file; typed_world := w' |})
    /\ users w' = users (typed_world rw)
    /\ quiz_submissions w' = quiz_submissions (typed_world rw)
    /\ pdf_files w' = pdf_files (typed_world rw)
    /\ chapter_observations w' = typed_view file.
Proof.
  intros Hg chapter data query now file.
  unfold update_observation_raw. rewrite Hg.
  fold chapter data. fold query. fold now. fold file.
  unfold bind, utcnow, write_json_file, log.
  cbn [store users quiz_submissions pdf_files chapter_observations last_push_time
       ticks uuids events fst snd].
  match goal with
  | |- context [sync_git env ?m ?v] =>
      destruct (sync_git_spec env m v) as (w' & Hs & Hu & Hq & Hp & Ho & _);
      rewrite Hs
  end.
  exists w'. cbn in Hu, Hq, Hp, Ho. repeat split; assumption.
Qed.

(** C8, as stated, fails: a request that carries both fields is refused
    when the data is an empty object, and likewise when the chapter is the
    number 0. *)
Lemma update_observation_raw_refuses_present_fields :
  let empty_data := [("chapter", JStr "C1"); ("data", JDict [])] in
  let zero_chapter := [("chapter", JInt 0); ("data", JDict [("note", JStr "ok")])] in
  (dict_get empty_data "chapter" <> None /\ dict_get empty_data "data" <> None
   /\ update_observation_raw small_env (JDict empty_data) small_raw_world
      = (HTTPException 400 "Missing 'chapter' or 'data'", small_raw_world))
  /\ (dict_get zero_chapter "chapter" <> None /\ dict_get zero_chapter "data" <> None
      /\ update_observation_raw small_env (JDict zero_chapter) small_raw_world
         = (HTTPException 400 "Missing 'chapter' or 'data'", small_raw_world)).
Proof.
  cbn. repeat split; discriminate.
Qed.

(** C8, amended.  For a body that is a JSON object, [update_observation]
    fails, with status 400 and everything unchanged, exactly when the chapter
    or the data is missing: not there, or a value that is false in Python
    (null, false, 0, 0.0, the empty string, list or object).  Otherwise it
    answers, touches no other file, and upserts by the chapter, compared with
    Python's [==] (for a chapter name: equality of the name): the first
    record of the file with that chapter, if there is one, gets the data and
    the time and keeps its chapter; if there is none, a new record goes
    last; all other records stay in place.  A body that is not an object is a
    server error. *)
Theorem update_observation_raw_upsert (env : Env) (body : dict json) (rw : RawWorld) :
  let chapter := dict_get body "chapter" in
  let data := dict_get body "data" in
  let now := isoformat (clock env (ticks (typed_world rw))) in
  ((exists status_code detail rw',
       update_observation_raw env (JDict body) rw = (HTTPException status_code detail, rw'))
   <-> missing chapter \/ missing data)
  /\ (forall status_code detail rw',
         update_observation_raw env (JDict body) rw
         = (HTTPException status_code detail, rw') ->
         status_code = 400%Z /\ detail = "Missing 'chapter' or 'data'" /\ rw' = rw)
  /\ (forall (answer : json) (rw' : RawWorld),
         update_observation_raw env (JDict body) rw = (Ok answer, rw') ->
         exists (c v : json),
           chapter = Some c /\ data = Some v /\ answer = updated
           /\ users (typed_world rw') = users (typed_world rw)
           /\ quiz_submissions (typed_world rw') = quiz_submissions (typed_world rw)
           /\ pdf_files (typed_world rw') = pdf_files (typed_world rw)
           /\ ((exists a o b,
                   observation_file rw = a ++ o :: b
                   /\ py_eq (Stored.chapter o) c = true
                   /\ (forall x, In x a -> py_eq (Stored.chapter x) c = false)
                   /\ observation_file rw'
                      = a ++ {| Stored.chapter := Stored.chapter o;
                                Stored.data := v;
                                Stored.updated_at := now |} :: b)
               \/ ((forall x, In x (observation_file rw) ->
                              py_eq (Stored.chapter x) c = false)
                   /\ observation_file rw'
                      = observation_file rw
                        ++ [{| Stored.chapter := c; Stored.data := v;
                               Stored.updated_at := now |}])))
  /\ (forall (x : json) (name : string), py_eq x (JStr name) = true <-> x = JStr name)
  /\ (forall other : json,
         (forall d, other <> JDict d) ->
         update_observation_raw env other rw
         = (HTTPException 500 "Internal Server Error", rw)).
Proof.
  intros chapter data now.
  assert (Hguard : negb (truthy (body_get body "chapter"))
                   || negb (truthy (body_get body "data")) = true
                   <-> missing chapter \/ missing data).
  { rewrite orb_true_iff, !missing_guard. reflexivity. }
  assert (Hname : forall (x : json) (name : string),
             py_eq x (JStr name) = true <-> x = JStr name).
  { intros x name. rewrite py_eq_name.
    destruct x as [|b|z|m e|s|l|d]; try (split; discriminate).
    rewrite String.eqb_eq. split; congruence. }
  assert (Hother : forall other : json,
             (forall d, other <> JDict d) ->
             update_observation_raw env other rw
             = (HTTPException 500 "Internal Server Error", rw)).
  { intros other Hd. destruct other as [|b|z|m e|s|l|d]; try reflexivity.
    now destruct (Hd d). }
  destruct (negb (truthy (body_get body "chapter"))
            || negb (truthy (body_get body "data"))) eqn:Eg.
  - assert (Hrun : update_observation_raw env (JDict body) rw
                   = (HTTPException 400 "Missing 'chapter' or 'data'", rw)).
    { unfold update_observation_raw. now rewrite Eg. }
    rewrite Hrun. split; [|split; [|split; [|split]]]; try assumption.
    + split; [intros _; now apply Hguard | eauto].
    + intros c d rw' [= <- <- <-]. auto.
    + intros answer rw' [=].
  - assert (Hnot : ~ (missing chapter \/ missing data))
      by (intros Hm; apply Hguard in Hm; discriminate).
    destruct (update_observation_raw_run env body rw Eg) as (w' & Hrun & Hu & Hq & Hp & _).
    rewrite Hrun. split; [|split; [|split; [|split]]]; try assumption.
    + split; [intros (c & d & rw' & [=]) | intros Hm; now destruct Hnot].
    + intros c d rw' [=].
    + intros answer rw' [= <- <-]. cbn [observation_file typed_world].
      assert (Hc : exists c, chapter = Some c /\ body_get body "chapter" = c).
      { unfold body_get. fold chapter. destruct chapter as [c|]; [eauto|].
        exfalso. apply Hnot. left. now left. }
      assert (Hv : exists v, data = Some v /\ body_get body "data" = v).
      { unfold body_get. fold data. destruct data as [v|]; [eauto|].
        exfalso. apply Hnot. right. now left. }
      destruct Hc as (c & Hc & ->). destruct Hv as (v & Hv & ->).
      exists c, v.
      repeat match goal with |- _ /\ _ => split end; try reflexivity; try assumption.
      destruct (find_one (observation_file rw) (fun item => py_eq (Stored.chapter item) c))
        as [o|] eqn:Ef; cbn [found].
      * left. destruct (find_one_split _ _ _ Ef) as (a & b & Hl & Hy & Ha).
        exists a, o, b. rewrite Hl at 2.
        rewrite (update_one_first _ _ a b o Ha Hy). auto.
      * right. split; [exact (find_one_None_all _ _ Ef) | reflexivity].
Qed.

(** The typed handler is the handler on bodies with a chapter name. *)

Lemma typed_view_app (a b : list Stored.t) :
  typed_view (a ++ b) = typed_view a ++ typed_view b.
Proof. unfold typed_view. apply flat_map_app. Qed.

Lemma typed_view_found (file : list Stored.t) (c : string) :
  found (find_one file (fun item => py_eq (Stored.chapter item) (JStr c)))
  = found (find_one (typed_view file) (fun item => Observation.chapter item =? c)).
Proof.
  unfold find_one. induction file as [|x file IH]; [reflexivity|].
  cbn [find typed_view flat_map]. rewrite py_eq_name.
  destruct (Stored.chapter x) as [|b|z|m e|s|l|d]; cbn [app find]; try exact IH.
  cbn [Observation.chapter]. destruct (s =? c); [reflexivity | exact IH].
Qed.

Lemma update_one_skip {A : Type} (query : A -> bool) (update : A -> A) (x : A)
    (l : list A) :
  query x = false ->
  fst (update_one (x :: l) query update) = x :: fst (update_one l query update).
Proof. intros H. cbn. rewrite H. now destruct (update_one l query update). Qed.

Lemma update_one_hit {A : Type} (query : A -> bool) (update : A -> A) (x : A)
    (l : list A) :
  query x = true -> fst (update_one (x :: l) query update) = update x :: l.
Proof. intros H. cbn. now rewrite H. Qed.

Lemma typed_view_update (file : list Stored.t) (c : string) (v : json) (now : string) :
  typed_view
    (fst (update_one file (fun item => py_eq (Stored.chapter item) (JStr c))
            (fun item => {| Stored.chapter := Stored.chapter item; Stored.data := v;
                            Stored.updated_at := now |})))
  = fst (update_one (typed_view file) (fun item => Observation.chapter item =? c)
           (fun item => {| Observation.chapter := Observation.chapter item;
                           Observation.data := v;
                           Observation.updated_at := now |})).
Proof.
  induction file as [|x file IH]; [reflexivity|].
  destruct (py_eq (Stored.chapter x) (JStr c)) eqn:Ex.
  - rewrite (update_one_hit _ _ x file Ex).
    rewrite py_eq_name in Ex.
    destruct x as [ch d u]. cbn [Stored.chapter] in Ex.
    destruct ch as [|b|z|m e|s|l|dd]; try discriminate Ex.
    change (typed_view ({| Stored.chapter := JStr s; Stored.data := d;
                           Stored.updated_at := u |} :: file))
      with ({| Observation.chapter := s; Observation.data := d;
               Observation.updated_at := u |} :: typed_view file).
    rewrite update_one_hit by exact Ex. reflexivity.
  - rewrite (update_one_skip _ _ x file Ex).
    rewrite py_eq_name in Ex.
    destruct x as [ch d u]. cbn [Stored.chapter] in Ex.
    destruct ch as [|b|z|m e|s|l|dd];
      try (change (typed_view (?r :: ?f)) with (typed_view f); exact IH).
    change (typed_view ({| Stored.chapter := JStr s; Stored.data := d;
                           Stored.updated_at := u |} :: file))
      with ({| Observation.chapter := s; Observation.data := d;
               Observation.updated_at := u |} :: typed_view file).
    rewrite update_one_skip by exact Ex.
    match goal with
    | |- typed_view (?r :: ?f) = _ =>
        change (typed_view (r :: f))
          with ({| Observation.chapter := s; Observation.data := d;
                   Observation.updated_at := u |} :: typed_view f)
    end.
    now rewrite IH.
Qed.

Lemma update_observation_explicit (env : Env) (w : World) (body : ObservationBody.t) c v :
  ObservationBody.chapter body = Some c ->
  ObservationBody.data body = Some v ->
  negb (str_truthy (ObservationBody.chapter body))
  || negb (json_truthy (ObservationBody.data body)) = false ->
  let query := fun item => Observation.chapter item =? c in
  let now := isoformat (clock env (ticks w)) in
  let observations :=
    if found (find_one (chapter_observations w) query)
    then fst (update_one (chapter_observations w) query
                (fun item => {| Observation.chapter := Observation.chapter item;
                                Observation.data := v;
                                Observation.updated_at := now |}))
    else chapter_observations w
         ++ [{| Observation.chapter := c; Observation.data := v;
                Observation.updated_at := now |}] in
  update_observation env body w
  = match sync_git env "Auto sync from /update-observation"
            (snd (write_json_file CHAPTER_OBSERVATIONS_FILE observations
                    (snd (utcnow env w)))) with
    | (Ok _, w') => (Ok updated, w')
    | (HTTPException status_code detail, w') => (HTTPException status_code detail, w')
    end.
Proof.
  intros Hc Hv Hg query now observations. subst observations.
  unfold update_observation. rewrite Hg, Hc, Hv.
  cbn [str_value json_value]. unfold bind at 1, read_json_file. fold query.
  destruct (found (find_one (chapter_observations w) query)); reflexivity.
Qed.

Lemma update_observation_raw_explicit (env : Env) (body : dict json) (rw : RawWorld) :
  negb (truthy (body_get body "chapter")) || negb (truthy (body_get body "data")) = false ->
  let chapter := body_get body "chapter" in
  let data := body_get body "data" in
  let query := fun item => py_eq (Stored.chapter item) chapter in
  let now := isoformat (clock env (ticks (typed_world rw))) in
  let file :=
    if found (find_one (observation_file rw) query)
    then fst (update_one (observation_file rw) query
                (fun item => {| Stored.chapter := Stored.chapter item;
                                Stored.data := data;
                                Stored.updated_at := now |}))
    else observation_file rw
         ++ [{| Stored.chapter := chapter; Stored.data := data;
                Stored.updated_at := now |}] in
  update_observation_raw env (JDict body) rw
  = match sync_git env "Auto sync from /update-observation"
            (snd (write_json_file CHAPTER_OBSERVATIONS_FILE (typed_view file)
                    (snd (utcnow env (typed_world rw))))) with
    | (Ok _, w') => (Ok updated, {| observation_file := file; typed_world := w' |})
    | (HTTPException status_code detail, w') =>
        (HTTPException status_code detail,
         {| observation_file := observation_file rw; typed_world := w' |})
    end.
Proof.
  intros Hg chapter data query now file.
  unfold update_observation_raw. rewrite Hg.
  fold chapter data. fold query. fold now. fold file.
  unfold bind, utcnow, write_json_file, log.
  cbn [store users quiz_submissions pdf_files chapter_observations last_push_time
       ticks uuids events fst snd].
  reflexivity.
Qed.

(** X20.  On a body with a chapter name, the handler does to the typed
    records what [update_observation] does with the typed request: when the
    world's observations are the named records of the file, both give the
    same answer and the same world, and the world's observations are again
    the named records of the file. *)
Theorem update_observation_raw_typed
    (env : Env) (body : dict json) (rw : RawWorld) (c : string) (v : json)
    (Hchapter : dict_get body "chapter" = Some (JStr c))
    (Hdata : dict_get body "data" = Some v)
    (Hview : chapter_observations (typed_world rw) = typed_view (observation_file rw)) :
  let typed_body := {| ObservationBody.chapter := Some c; ObservationBody.data := Some v |} in
  fst (update_observation_raw env (JDict body) rw)
  = fst (update_observation env typed_body (typed_world rw))
  /\ typed_world (snd (update_observation_raw env (JDict body) rw))
     = snd (update_observation env typed_body (typed_world rw))
  /\ chapter_observations (typed_world (snd (update_observation_raw env (JDict body) rw)))
     = typed_view (observation_file (snd (update_observation_raw env (JDict body) rw))).
Proof.
  intros typed_body.
  assert (Hc : body_get body "chapter" = JStr c) by (unfold body_get; now rewrite Hchapter).
  assert (Hv : body_get body "data" = v) by (unfold body_get; now rewrite Hdata).
  destruct (negb (truthy (JStr c)) || negb (truthy v)) eqn:Eg.
  - assert (Hraw : update_observation_raw env (JDict body) rw
                   = (HTTPException 400 "Missing 'chapter' or 'data'", rw)).
    { unfold update_observation_raw. now rewrite Hc, Hv, Eg. }
    rewrite Hraw, (update_observation_refused env (typed_world rw) typed_body Eg).
    cbn [fst snd]. auto.
  - rewrite (update_observation_raw_explicit env body rw) by now rewrite Hc, Hv.
    rewrite (update_observation_explicit env (typed_world rw) typed_body c v eq_refl eq_refl Eg).
    rewrite Hc, Hv, Hview, <- typed_view_found.
    set (now := isoformat (clock env (ticks (typed_world rw)))).
    assert (Hfile :
              typed_view
                (if found (find_one (observation_file rw)
                             (fun item => py_eq (Stored.chapter item) (JStr c)))
                 then fst (update_one (observation_file rw)
                             (fun item => py_eq (Stored.chapter item) (JStr c))
                             (fun item => {| Stored.chapter := Stored.chapter item;
                                             Stored.data := v;
                                             Stored.updated_at := now |}))
                 else observation_file rw
                      ++ [{| Stored.chapter := JStr c; Stored.data := v;
                             Stored.updated_at := now |}])
              = if found (find_one (observation_file rw)
                            (fun item => py_eq (Stored.chapter item) (JStr c)))
                then fst (update_one (typed_view (observation_file rw))
                            (fun item => Observation.chapter item =? c)
                            (fun item => {| Observation.chapter := Observation.chapter item;
                                            Observation.data := v;
                                            Observation.updated_at := now |}))
                else typed_view (observation_file rw)
                     ++ [{| Observation.chapter := c; Observation.data := v;
                            Observation.updated_at := now |}]).
    { destruct (found _); [apply typed_view_update | now rewrite typed_view_app]. }
    rewrite Hfile.
    match goal with
    | |- context [sync_git env ?m ?u] =>
        destruct (sync_git_spec env m u) as (w' & Hs & _ & _ & _ & Ho & _);
        rewrite Hs
    end.
    cbn [fst snd observation_file typed_world].
    split; [reflexivity|]. split; [reflexivity|].
    rewrite Ho, Hfile. reflexivity.
Qed.

Lemma update_observation_raw_typed_witness :
  dict_get [("chapter", JStr "C1"); ("data", JFloat 1 (-1))] "chapter" = Some (JStr "C1")
  /\ dict_get [("chapter", JStr "C1"); ("data", JFloat 1 (-1))] "data" = Some (JFloat 1 (-1))
  /\ chapter_observations (typed_world small_raw_world)
     = typed_view (observation_file small_raw_world)
  /\ fst (update_observation_raw small_env
            (JDict [("chapter", JStr "C1"); ("data", JFloat 1 (-1))]) small_raw_world)
     = fst (update_observation small_env
              {| ObservationBody.chapter := Some "C1";
                 ObservationBody.data := Some (JFloat 1 (-1)) |}
              (typed_world small_raw_world)).
Proof.
  split; [reflexivity|]. split; [reflexivity|]. split; [reflexivity|].
  exact (proj1 (update_observation_raw_typed small_env
                  [("chapter", JStr "C1"); ("data", JFloat 1 (-1))] small_raw_world
                  "C1" (JFloat 1 (-1)) eq_refl eq_refl eq_refl)).
Defined.

(** The file of the small raw world under three requests: a chapter name, a
    number that equals a stored chapter as [7.0] does [7], and a list. *)
Example raw_requests :
  map Stored.chapter
      (observation_file
         (snd (update_observation_raw small_env
                 (JDict [("chapter", JStr "C1"); ("data", JInt 1)]) small_raw_world)))
  = [JInt 7; JStr "C1"]
  /\ map Stored.data
         (observation_file
            (snd (update_observation_raw small_env
                    (JDict [("chapter", JFloat 7 0); ("data", JStr "new")])
                    small_raw_world)))
     = [JStr "new"; JStr "old"]
  /\ map Stored.chapter
         (observation_file
            (snd (update_observation_raw small_env
                    (JDict [("chapter", JList [JInt 1]); ("data", JFloat 1 (-1))])
                    small_raw_world)))
     = [JInt 7; JStr "C1"; JList [JInt 1]]
  /\ fst (update_observation_raw small_env
            (JDict [("chapter", JStr "C1"); ("data", JFloat 0 0)]) small_raw_world)
     = HTTPException 400 "Missing 'chapter' or 'data'"
  /\ fst (update_observation_raw small_env (JList []) small_raw_world)
     = HTTPException 500 "Internal Server Error".
Proof. repeat split; reflexivity. Qed.

Example python_equality :
  py_eq (JBool true) (JInt 1) = true
  /\ py_eq (JInt 1) (JFloat 1 0) = true
  /\ py_eq (JFloat 1 (-1)) (JFloat 2 (-2)) = true
  /\ py_eq (JInt 1) (JStr "1") = false
  /\ py_eq (JNull) (JBool false) = false
  /\ py_eq (JDict [("a", JInt 1); ("b", JInt 2)]) (JDict [("b", JInt 2); ("a", JInt 1)]) = true
  /\ py_eq (JList [JInt 1]) (JList [JInt 1; JInt 2]) = false.
Proof. repeat split; reflexivity. Qed.
